(** * Backtesting engine: ledger, simulation pass and performance summary

    A shallow embedding of [TradingBacktester] (src/bakctest_engine.py).

    Numbers.  The program computes with Python and numpy floats
    (binary64).  The embedding writes the same expressions over the exact
    rationals [Q], with [==] between computed amounts.  Rounding is thereby
    abstracted away, so nothing stated below rests on an algebraic law that
    binary64 arithmetic lacks: the equalities proved are between the very
    expressions the program evaluates, in its order of evaluation, or need
    only facts that hold of floats as well ([x - x] is 0, [0 / x] is 0 for a
    non-zero [x], a count is at most a length).  Where rounding decides a
    property, the arithmetic is also given in binary64 itself ([Binary64]).
    Division follows [Qdiv], which is total; numpy's infinities are not
    represented, Python's [ZeroDivisionError] is.  The one special value the
    program relies on, numpy's [nan] for the standard deviation of an empty
    array, is kept ([npfloat]).

    Keys.  A Python dict is keyed by arbitrary hashable values; row labels
    ([row.name]) and the frame attribute ([self.data.name]) live in the same
    key space and are compared with [==], so both are modelled as [string]. *)

From Stdlib Require Import ZArith QArith Qpower Qabs Qround List Lia.
From Stdlib Require Floats.
From stdpp Require Import base option gmap strings list fin_maps pretty.
Import ListNotations.

Local Open Scope string_scope.
Local Open Scope list_scope.
Local Open Scope Q_scope.

(** ** Data model *)

(** One row of the frame as [iterrows] yields it: [row.name] is the index
    label of the row, [row['Close']] and [row['signal']] its two columns. *)
Record Row : Type := mkRow {
  name : string;
  Close : Q;
  signal : Z
}.

(** The market data: the frame's rows in order and the [name] attribute that
    [main] sets to the ticker ([data.name = ticker]). *)
Record DataFrame : Type := mkData {
  df_name : string;
  rows : list Row
}.

(** An entry of [self.trades]: the dict
    [{'ticker': ticker, 'quantity': qty, 'price': price}]. *)
Record Trade : Type := mkTrade {
  ticker : string;
  quantity : Q;
  price : Q
}.

(** The mutable attributes of a [TradingBacktester] ([self.data] is passed
    separately, it is never assigned after construction). *)
Record State : Type := mkState {
  cash : Q;
  positions : gmap string Q;
  trades : list Trade;
  risk_fraction : Q
}.

(** [__init__]: empty positions, empty trade log. *)
Definition init (initial_cash risk : Q) : State :=
  {| cash := initial_cash; positions := ∅; trades := []; risk_fraction := risk |}.

(** [self.positions.get(k, 0)] *)
Definition get (m : gmap string Q) (k : string) : Q := default 0 (m !! k).

(** ** Simulator *)

(** [_execute(ticker, qty, price)]:
    [self.cash -= qty * price];
    [self.positions[ticker] = self.positions.get(ticker, 0) + qty];
    [self.trades.append({...})]. *)
Definition _execute (st : State) (tk : string) (qty p : Q) : State :=
  {| cash := cash st - qty * p;
     positions := <[tk := get (positions st) tk + qty]> (positions st);
     trades := trades st ++ [mkTrade tk qty p];
     risk_fraction := risk_fraction st |}.

(** [qty > 0] on numbers, as a boolean. *)
Definition Qgtb (x y : Q) : bool := negb (Qle_bool x y).

(** The body of the loop of [simulate] for one row. *)
Definition step (data_name : string) (st : State) (row : Row) : State :=
  let sig := signal row in
  let p := Close row in
  if (sig =? 1)%Z then
    let available := cash st in
    let qty := (available * risk_fraction st) / p in
    _execute st (name row) qty p
  else if (sig =? -1)%Z then
    let qty := get (positions st) data_name in
    if Qgtb qty 0 then _execute st (name row) (- qty) p
    else st
  else st.

(** [simulate]: one pass over [self.data.iterrows()], in order. *)
Definition simulate_from (data : DataFrame) (st : State) (rs : list Row) : State :=
  fold_left (step (df_name data)) rs st.

Definition simulate (st : State) (data : DataFrame) : State :=
  simulate_from data st (rows data).

(** [portfolio_value(price)]:
    [self.cash + sum(qty * price for _, qty in self.positions.items())]. *)
Definition pos_value (m : gmap string Q) (p : Q) : Q :=
  map_fold (fun _ qty acc => acc + qty * p) 0 m.

Definition portfolio_value (st : State) (p : Q) : Q :=
  cash st + pos_value (positions st) p.

(** The number of buy signals in a series. *)
Definition buy_signals (rs : list Row) : nat :=
  length (List.filter (fun r => (signal r =? 1)%Z) rs).

(** An invariant of the pass on frames labelled apart from their name: the
    ledger has no entry under the frame name. *)
Definition no_name_entry (nm : string) (st : State) : Prop :=
  positions st !! nm = None.

(** ** Performance analyzer *)

(** The exceptions the analyzer can raise. *)
Inductive PyError : Type :=
  | IndexError          (* [iloc] out of bounds *)
  | TypeError           (* unsupported operand types *)
  | ZeroDivisionError.  (* [/] of Python numbers by zero *)

Inductive exc (A : Type) : Type :=
  | Ok (a : A)
  | Raise (e : PyError).
Arguments Ok {A} a.
Arguments Raise {A} e.

Definition bind {A B : Type} (m : exc A) (k : A -> exc B) : exc B :=
  match m with
  | Ok a => k a
  | Raise e => Raise e
  end.

Notation "'let*' x ':=' m 'in' k" := (bind m (fun x => k))
  (at level 10, x name, m at level 100, k at level 200).

(** A numpy float that may be [nan]. *)
Inductive npfloat : Type :=
  | Fin (q : Q)
  | NaN.

Definition npf_mul (x y : npfloat) : npfloat :=
  match x, y with
  | Fin a, Fin b => Fin (a * b)
  | _, _ => NaN
  end.

Definition npf_div (x y : npfloat) : npfloat :=
  match x, y with
  | Fin a, Fin b => Fin (a / b)
  | _, _ => NaN
  end.

(** [x > y]; every comparison with [nan] is [False]. *)
Definition npf_gtb (x : npfloat) (y : Q) : bool :=
  match x with
  | Fin a => Qgtb a y
  | NaN => false
  end.

(** A sequence of numbers is either a Python list or a numpy array: the two
    support different operators. *)
Inductive pyseq : Type :=
  | PyList (l : list Q)
  | NdArray (l : list Q).

Definition items (s : pyseq) : list Q :=
  match s with
  | PyList l => l
  | NdArray l => l
  end.

(** [len(s)] *)
Definition len (s : pyseq) : nat := length (items s).

(** [s > y]: elementwise on an array; [list > int] raises [TypeError]. *)
Definition py_gt (s : pyseq) (y : Q) : exc (list bool) :=
  match s with
  | NdArray l => Ok (map (fun x => Qgtb x y) l)
  | PyList _ => Raise TypeError
  end.

(** [np.diff]: differences of consecutive entries. *)
Fixpoint np_diff (l : list Q) : list Q :=
  match l with
  | x :: tl =>
      match tl with
      | y :: _ => (y - x) :: np_diff tl
      | [] => []
      end
  | [] => []
  end.

(** Elementwise [/] and [*] of two arrays; in this program both operands
    always have the same length (see [length_np_diff]). *)
Definition np_divide (a b : list Q) : list Q := zip_with Qdiv a b.
Definition np_multiply (a b : list Q) : list Q := zip_with Qmult a b.

(** [np.sum], also of a boolean array (the number of [True]s). *)
Definition np_sum (l : list Q) : Q := fold_left Qplus l 0.
Definition np_count (l : list bool) : nat := length (List.filter (fun b : bool => b) l).

Definition Qnat (n : nat) : Q := inject_Z (Z.of_nat n).

(** [np.mean] of a non-empty sequence. *)
Definition np_mean (l : list Q) : Q := np_sum l / Qnat (length l).

(** [returns()]:
    [values = [self.portfolio_value(row['Close']) for _, row in iterrows()]];
    [np.diff(values) / values[:-1]]. *)
Definition valuations (st : State) (data : DataFrame) : list Q :=
  map (fun row => portfolio_value st (Close row)) (rows data).

Definition returns (st : State) (data : DataFrame) : list Q :=
  let values := valuations st data in
  np_divide (np_diff values) (removelast values).

(** [self.data.iloc[0]] and [self.data.iloc[-1]] *)
Definition iloc_first (rs : list Row) : exc Row :=
  match rs with
  | r :: _ => Ok r
  | [] => Raise IndexError
  end.

Definition iloc_last (rs : list Row) : exc Row :=
  match rs with
  | r :: tl => Ok (List.last tl r)
  | [] => Raise IndexError
  end.

(** The trade statistics of [performance_summary] (lines 70-77):
    [(pnl, avg_return, win_rate)].  Both conditionals test the same length,
    so whenever [trade_pnl] takes its first branch [trade_returns] is the
    array built just before, of the length of [trade_qty[:-1]]. *)
Definition trade_returns_of (trade_prices : list Q) : pyseq :=
  if (1 <? length trade_prices)%nat
  then NdArray (np_divide (np_diff trade_prices) (removelast trade_prices))
  else PyList [0].

Definition trade_pnl_of (trade_returns : pyseq) (trade_qty : list Q) : pyseq :=
  if (1 <? length trade_qty)%nat
  then NdArray (np_multiply (items trade_returns) (removelast trade_qty))
  else PyList [0].

Definition trade_stats (log : list Trade) : exc (Q * Q * Q) :=
  let trade_prices := map price log in
  let trade_qty := map quantity log in
  let trade_returns := trade_returns_of trade_prices in
  let trade_pnl := trade_pnl_of trade_returns trade_qty in
  let pnl := np_sum (items trade_pnl) in
  let avg_return :=
    if (0 <? len trade_returns)%nat then np_mean (items trade_returns) else 0 in
  let* win_rate :=
    (if (0 <? len trade_pnl)%nat
     then let* wins := py_gt trade_pnl 0 in
          Ok (Qnat (np_count wins) / Qnat (len trade_pnl))
     else Ok 0) in
  Ok (pnl, avg_return, win_rate).

(** The dict returned by [performance_summary]. *)
Record Summary : Type := mkSummary {
  Total_Return : Q;
  Annualized_Return : Q;
  Volatility : npfloat;
  Sharpe_Ratio : npfloat;
  PnL : Q;
  Avg_Trade_Return : Q;
  Win_Rate : Q
}.

(** [(annual_return - 0.02) / volatility if volatility > 0 else 0] *)
Definition sharpe_of (annual_return : Q) (volatility : npfloat) : npfloat :=
  if npf_gtb volatility 0
  then npf_div (Fin (annual_return - (2 # 100))) volatility
  else Fin 0.

(** Which kind of number [portfolio_value] returns.  [self.cash] is the
    constructor's argument, a plain Python number, until [_execute]
    subtracts a numpy product from it, and the sum over an empty dict is the
    int 0: until the first trade (no position entry, empty log) the
    valuations are Python numbers, from then on numpy floats. *)
Definition python_valued (st : State) : bool :=
  (size (positions st) =? 0)%nat && (length (trades st) =? 0)%nat.

(** [a / b] as line 65 evaluates it: on Python numbers a zero divisor
    raises; on numpy floats nothing is raised (the quotient is then [nan] or
    infinite, which the rationals do not represent). *)
Definition py_div (python : bool) (a b : Q) : exc Q :=
  if python && Qeq_bool b 0 then Raise ZeroDivisionError else Ok (a / b).

(** Whether line 65 divides Python numbers by a zero first valuation. *)
Definition zero_division (st : State) (data : DataFrame) : bool :=
  match rows data with
  | r0 :: _ => python_valued st && Qeq_bool (portfolio_value st (Close r0)) 0
  | [] => false
  end.

Section Analyzer.

(** The two irrational primitives, taken as parameters: float
    exponentiation [x ** y] and [np.sqrt]. *)
Variable power : Q -> Q -> Q.
Variable np_sqrt : Q -> Q.

(** [np.std]: the population standard deviation,
    [sqrt(mean(abs(x - x.mean())**2))]; [nan] on an empty array. *)
Definition np_std (l : list Q) : npfloat :=
  match l with
  | [] => NaN
  | _ :: _ =>
      let m := np_mean l in
      Fin (np_sqrt (np_mean (map (fun x => Qabs (x - m) ^ 2) l)))
  end.

(** Lines 61-68: the valuation statistics
    [(total_return, annual_return, volatility, sharpe)]. *)
Definition valuation_stats (st : State) (data : DataFrame)
  : exc (Q * Q * npfloat * npfloat) :=
  let rets := returns st data in
  let* r0 := iloc_first (rows data) in
  let initial_val := portfolio_value st (Close r0) in
  let* rn := iloc_last (rows data) in
  let final_val := portfolio_value st (Close rn) in
  let* total_return :=
    py_div (python_valued st) (final_val - initial_val) initial_val in
  let annual_return :=
    power (1 + total_return) (252 / Qnat (length (rows data))) - 1 in
  let volatility := npf_mul (np_std rets) (Fin (np_sqrt 252)) in
  let sharpe := sharpe_of annual_return volatility in
  Ok (total_return, annual_return, volatility, sharpe).

(** [performance_summary()] *)
Definition performance_summary (st : State) (data : DataFrame) : exc Summary :=
  let* vs := valuation_stats st data in
  let* ts := trade_stats (trades st) in
  let '(total_return, annual_return, volatility, sharpe) := vs in
  let '(pnl, avg_return, win_rate) := ts in
  Ok {| Total_Return := total_return;
        Annualized_Return := annual_return;
        Volatility := volatility;
        Sharpe_Ratio := sharpe;
        PnL := pnl;
        Avg_Trade_Return := avg_return;
        Win_Rate := win_rate |}.

End Analyzer.

(** Sample interpretations of the two primitives, used to run the model:
    a power with the exponent rounded down to an integer (exact whenever the
    number of rows divides 252) and the integer square root. *)
Definition power_floor (x y : Q) : Q := x ^ Qfloor y.
Definition sqrt_floor (x : Q) : Q := inject_Z (Z.sqrt (Qfloor x)).

(** ** Sample inputs *)

(** Scenario A of the specification: prices 100, 110, 121 with signals
    buy, hold, sell; the row labels and the frame name are left open. *)
Definition scenarioA (l1 l2 l3 nm : string) : DataFrame :=
  mkData nm [mkRow l1 100 1; mkRow l2 110 0; mkRow l3 121 (-1)].

(** The frame as [main] builds it: rows labelled by date, [name] the ticker. *)
Definition dated_A : DataFrame :=
  scenarioA "2024-01-02" "2024-01-03" "2024-01-04" "AAPL".

(** A frame whose first row label happens to equal the frame name. *)
Definition mixed_A : DataFrame :=
  scenarioA "AAPL" "2024-01-03" "2024-01-04" "AAPL".

(** Two buys in a row: the second is sized by the cash left by the first. *)
Definition two_buys : DataFrame :=
  mkData "AAPL" [mkRow "2024-01-02" 100 1; mkRow "2024-01-03" 50 1].

(** A single buy on a ledger opened with a negative balance. *)
Definition overdrawn_buy : DataFrame :=
  mkData "AAPL" [mkRow "2024-01-02" 100 1].

(** The same buy, one row later in the series. *)
Definition late_buy : DataFrame :=
  mkData "AAPL" [mkRow "2024-01-01" 50 0; mkRow "2024-01-02" 100 1].

(** Two rows, both on hold. *)
Definition all_hold : DataFrame :=
  mkData "AAPL" [mkRow "2024-01-02" 100 0; mkRow "2024-01-03" 110 0].

(** ** The ledger read back from the trade log *)

(** The cash a ledger opened with [c0] has after the trades of [log], and
    the quantity booked under key [k] by them. *)
Definition log_cash (c0 : Q) (log : list Trade) : Q :=
  fold_left (fun acc t => acc - quantity t * price t) log c0.

Definition log_position (k : string) (log : list Trade) : Q :=
  fold_left (fun acc t => if decide (ticker t = k) then acc + quantity t else acc)
            log 0.

(** ** The buy arithmetic in binary64 *)

(** Lines 34-35 and 45 on the program's own numbers: the quantity of a buy
    and the cash it leaves, each operation rounded to binary64. *)
Module Binary64.
Import PrimFloat.

Definition buy_quantity (cash risk close : float) : float :=
  (cash * risk) / close.

Definition cash_after_buy (cash risk close : float) : float :=
  cash - buy_quantity cash risk close * close.

(** A buy at 7.5 out of a cash of 1000 with risk fraction 1, and the
    quantity of the buy at 100 that follows it. *)
Definition cash_after_full_buy : float := cash_after_buy 1000 1 7.5.
Definition next_quantity : float := buy_quantity cash_after_full_buy 1 100.

End Binary64.

(** The rows of a series that carry a buy or a sell signal. *)
Definition is_order (r : Row) : bool :=
  ((signal r =? 1) || (signal r =? -1))%Z.

(** ** Plotting and the main runner *)

(** What [plot()] hands to matplotlib: the dates and the two curves of its
    two [plt.plot] calls.  Drawing itself is not modelled.  On an empty
    frame [max(values)] raises [ValueError] (after the first, empty, curve
    has been drawn). *)
Inductive plot_result : Type :=
  | Plotted (dates : list string) (values overlay : list Q)
  | PlotValueError.

(** [max] of a non-empty list [x :: l]: the first largest element. *)
Fixpoint py_max (x : Q) (l : list Q) : Q :=
  match l with
  | [] => x
  | y :: tl => py_max (if Qgtb y x then y else x) tl
  end.

(** [plot()]: the valuations of all rows with the current ledger and
    [signals * max(values) * 0.05]. *)
Definition plot (st : State) (data : DataFrame) : plot_result :=
  let values := valuations st data in
  let dates := map name (rows data) in
  match values with
  | [] => PlotValueError
  | v :: tl =>
      Plotted dates values
        (map (fun row => inject_Z (signal row) * py_max v tl * (5 # 100)) (rows data))
  end.

(** [a > b] on two numpy floats; false as soon as one is [nan]. *)
Definition npf_gt (x y : npfloat) : bool :=
  match x, y with
  | Fin a, Fin b => Qgtb a b
  | _, _ => false
  end.

(** [np.where(short_ma > long_ma, 1, -1)] *)
Definition np_where_gt (short_ma long_ma : list npfloat) : list Z :=
  zip_with (fun x y => if npf_gt x y then 1%Z else (-1)%Z) short_ma long_ma.

(** The outcome of [main]: an exception raised by the summary, or the
    summary that is printed together with what is plotted. *)
Inductive main_result : Type :=
  | Crashed (e : PyError)
  | Reported (s : Summary) (p : plot_result).

Section Main.

(** [ta.trend.sma_indicator] is library code, taken as a parameter, as are
    the two float primitives of the analyzer. *)
Variable sma_indicator : list Q -> nat -> list npfloat.
Variable power : Q -> Q -> Q.
Variable np_sqrt : Q -> Q.

(** The frame [main] hands to the backtester, from the downloaded rows
    (label and close): the signal column is the crossover of the 50 and 200
    row averages, the frame name is the ticker. *)
Definition main_frame (tk : string) (fetched : list (string * Q)) : DataFrame :=
  let close := map snd fetched in
  let short_ma := sma_indicator close 50 in
  let long_ma := sma_indicator close 200 in
  let sig := np_where_gt short_ma long_ma in
  mkData tk (zip_with (fun lc s => mkRow (fst lc) (snd lc) s) fetched sig).

(** [bt = TradingBacktester(data); bt.simulate()] with the default cash and
    risk fraction. *)
Definition main_backtest (tk : string) (fetched : list (string * Q)) : State :=
  simulate (init 1000000 (2 # 100)) (main_frame tk fetched).

(** [main()] after the download: simulate, summarise (printing is not
    modelled), plot. *)
Definition main (tk : string) (fetched : list (string * Q)) : main_result :=
  let data := main_frame tk fetched in
  let bt := main_backtest tk fetched in
  match performance_summary power np_sqrt bt data with
  | Raise e => Crashed e
  | Ok s => Reported s (plot bt data)
  end.

End Main.

(** A sample interpretation of the moving average, used to run the model:
    the mean of the last [window] closes, [nan] until that many rows are
    available. *)
Definition rolling_mean (close : list Q) (window : nat) : list npfloat :=
  map (fun i => if (S i <? window)%nat then NaN
                else Fin (np_mean (firstn window (skipn (S i - window) close))))
      (seq 0 (length close)).

(** 202 downloaded rows with closes 1, 2, ..., 202. *)
Definition rising_prices : list (string * Q) :=
  map (fun i => ("d" +:+ pretty i, inject_Z (Z.of_nat i + 1))) (seq 0 202).

(** Five downloaded rows, too few for the long average. *)
Definition five_days : list (string * Q) :=
  map (fun i => ("d" +:+ pretty i, inject_Z (Z.of_nat i + 1))) (seq 0 5).

(** ** Properties of the simulator *)

Lemma Qgtb_lt (x y : Q) : Qgtb x y = true <-> y < x.
Proof.
  unfold Qgtb. rewrite negb_true_iff, <- not_true_iff_false, Qle_bool_iff.
  split; [apply Qnot_le_lt | apply Qlt_not_le].
Qed.

Lemma Qgtb_le (x y : Q) : Qgtb x y = false <-> x <= y.
Proof.
  unfold Qgtb. rewrite negb_false_iff. apply Qle_bool_iff.
Qed.

Lemma get_insert_eq (m : gmap string Q) (k : string) (v : Q) :
  get (<[k := v]> m) k = v.
Proof. unfold get. now rewrite lookup_insert_eq. Qed.

Lemma get_insert_ne (m : gmap string Q) (k k' : string) (v : Q) :
  k <> k' -> get (<[k := v]> m) k' = get m k'.
Proof. intros Hne. unfold get. now rewrite lookup_insert_ne. Qed.

(** The three branches of the loop body. *)
Lemma step_buy (nm : string) (st : State) (r : Row) :
  signal r = 1%Z ->
  step nm st r =
  _execute st (name r) (cash st * risk_fraction st / Close r) (Close r).
Proof. intros Hs. unfold step. now rewrite Hs. Qed.

Lemma step_sell_exec (nm : string) (st : State) (r : Row) :
  signal r = (-1)%Z -> 0 < get (positions st) nm ->
  step nm st r = _execute st (name r) (- get (positions st) nm) (Close r).
Proof.
  intros Hs Hpos. unfold step. rewrite Hs. cbn.
  apply Qgtb_lt in Hpos. now rewrite Hpos.
Qed.

Lemma step_sell_noop (nm : string) (st : State) (r : Row) :
  signal r = (-1)%Z -> get (positions st) nm <= 0 -> step nm st r = st.
Proof.
  intros Hs Hle. unfold step. rewrite Hs. cbn.
  apply Qgtb_le in Hle. now rewrite Hle.
Qed.

Lemma step_hold (nm : string) (st : State) (r : Row) :
  signal r <> 1%Z -> signal r <> (-1)%Z -> step nm st r = st.
Proof.
  intros H1 H2. unfold step.
  apply Z.eqb_neq in H1, H2. now rewrite H1, H2.
Qed.

(** When the row label and the frame name are the same key, an executed
    sell empties the position held under that key. *)
Lemma step_sell_same_key (nm : string) (st : State) (r : Row) :
  signal r = (-1)%Z -> 0 < get (positions st) nm -> name r = nm ->
  get (positions (step nm st r)) nm == 0.
Proof.
  intros Hs Hpos Hk. rewrite step_sell_exec by assumption.
  cbn. rewrite Hk, get_insert_eq. ring.
Qed.

(** When they differ, the position under the frame name is left as it was
    and the quantity is subtracted under the row label. *)
Lemma step_sell_other_key (nm : string) (st : State) (r : Row) :
  signal r = (-1)%Z -> 0 < get (positions st) nm -> name r <> nm ->
  get (positions (step nm st r)) nm = get (positions st) nm /\
  get (positions (step nm st r)) (name r) =
    get (positions st) (name r) + - get (positions st) nm.
Proof.
  intros Hs Hpos Hk. rewrite step_sell_exec by assumption. cbn.
  now rewrite get_insert_ne, get_insert_eq.
Qed.

Lemma simulate_from_app (data : DataFrame) (st : State) (l1 l2 : list Row) :
  simulate_from data st (l1 ++ l2) =
  simulate_from data (simulate_from data st l1) l2.
Proof. unfold simulate_from. apply fold_left_app. Qed.

Lemma simulate_from_snoc (data : DataFrame) (st : State) (l : list Row) (r : Row) :
  simulate_from data st (l ++ [r]) =
  step (df_name data) (simulate_from data st l) r.
Proof. now rewrite simulate_from_app. Qed.

Lemma step_risk_fraction (nm : string) (st : State) (r : Row) :
  risk_fraction (step nm st r) = risk_fraction st.
Proof.
  unfold step. repeat (case_match; try reflexivity).
Qed.

Lemma simulate_from_risk_fraction (data : DataFrame) (rs : list Row) (st : State) :
  risk_fraction (simulate_from data st rs) = risk_fraction st.
Proof.
  revert st. induction rs as [|r rs IH]; intros st; [reflexivity|].
  cbn. change (risk_fraction (simulate_from data (step (df_name data) st r) rs) = risk_fraction st).
  rewrite IH. apply step_risk_fraction.
Qed.

(** C3: [_execute] with signed quantity [q] and price [p] subtracts [q * p]
    from the cash, adds [q] to the position under the given key (read with
    default 0, so an absent entry is created at [0 + q]), leaves every other
    position entry as it was, and appends exactly one record to the trade
    log.  It is a total function of the state: no balance makes it fail. *)
Theorem execute_conservation (st : State) (tk : string) (q p : Q) :
  cash (_execute st tk q p) = cash st - q * p /\
  positions (_execute st tk q p) !! tk = Some (default 0 (positions st !! tk) + q) /\
  get (positions (_execute st tk q p)) tk = get (positions st) tk + q /\
  delete tk (positions (_execute st tk q p)) = delete tk (positions st) /\
  trades (_execute st tk q p) = trades st ++ [mkTrade tk q p] /\
  length (trades (_execute st tk q p)) = S (length (trades st)) /\
  risk_fraction (_execute st tk q p) = risk_fraction st.
Proof.
  cbn. repeat split.
  - apply lookup_insert_eq.
  - apply get_insert_eq.
  - apply delete_insert_eq.
  - rewrite length_app. cbn. lia.
Qed.

(** C4: at a row with [signal = 1] the pass executes a buy of
    [(cash * risk_fraction) / Close] at the row's close, where [cash] is the
    balance reached after the rows before it in the same pass; nothing
    checks the balance. *)
Theorem buy_sized_by_current_cash
    (data : DataFrame) (st0 : State) (pre post : list Row) (r : Row) :
  rows data = pre ++ r :: post ->
  signal r = 1%Z ->
  simulate_from data st0 (pre ++ [r]) =
    _execute (simulate_from data st0 pre) (name r)
      (cash (simulate_from data st0 pre) * risk_fraction st0 / Close r) (Close r) /\
  simulate st0 data =
    simulate_from data
      (_execute (simulate_from data st0 pre) (name r)
         (cash (simulate_from data st0 pre) * risk_fraction st0 / Close r) (Close r))
      post.
Proof.
  intros Hrows Hs.
  assert (Hstep : simulate_from data st0 (pre ++ [r]) =
    _execute (simulate_from data st0 pre) (name r)
      (cash (simulate_from data st0 pre) * risk_fraction st0 / Close r) (Close r)).
  { rewrite simulate_from_snoc, step_buy by assumption.
    now rewrite simulate_from_risk_fraction. }
  split; [exact Hstep|].
  unfold simulate. rewrite Hrows.
  change (pre ++ r :: post) with (pre ++ [r] ++ post).
  now rewrite app_assoc, simulate_from_app, Hstep.
Qed.

Lemma buy_sized_by_current_cash_witness :
  let st0 := init 1000 (1 # 2) in
  let st1 := simulate_from two_buys st0 [mkRow "2024-01-02" 100 1] in
  cash st1 == 500 /\
  simulate st0 two_buys =
    simulate_from two_buys
      (_execute st1 "2024-01-03" (cash st1 * (1 # 2) / 50) 50) [].
Proof.
  split; [vm_compute; reflexivity|].
  apply (buy_sized_by_current_cash two_buys (init 1000 (1 # 2))
           [mkRow "2024-01-02" 100 1] [] (mkRow "2024-01-03" 50 1));
    reflexivity.
Defined.

(** C1: a sell signal looks the held quantity up under the frame name but
    executes the sale under the row label.  On [mixed_A] the ledger holds 5
    under the frame name when the sell row arrives; the sale of 5 at 121 is
    executed, yet the position under the frame name stays at 5 and a
    position of -5 is opened under the row label.  On [dated_A] (rows
    labelled by date) 5 units are held under the first row's label and the
    sell row changes nothing. *)
Theorem sell_leaves_position_open :
  let st0 := init 1000 (1 # 2) in
  (get (positions (simulate_from mixed_A st0 (firstn 2 (rows mixed_A)))) "AAPL" == 5 /\
   get (positions (simulate st0 mixed_A)) "AAPL" == 5 /\
   get (positions (simulate st0 mixed_A)) "2024-01-04" == -5 /\
   cash (simulate st0 mixed_A) == 1105 /\
   length (trades (simulate st0 mixed_A)) = 2%nat) /\
  (get (positions (simulate_from dated_A st0 (firstn 2 (rows dated_A)))) "2024-01-02" == 5 /\
   simulate st0 dated_A = simulate_from dated_A st0 (firstn 2 (rows dated_A))).
Proof.
  cbv zeta. repeat split; vm_compute; reflexivity.
Qed.

(** C2: scenario A on a frame whose rows are labelled by date.  Day 1 buys
    5 at 100 (cash 500, position 5 under the day's label); on day 3 no sale
    is executed: cash stays 500, the position stays 5 and the log keeps its
    single record.  The portfolio value at 121 is 1105 all the same. *)
Theorem scenarioA_dated_no_sale :
  let st0 := init 1000 (1 # 2) in
  let day1 := simulate_from dated_A st0 (firstn 1 (rows dated_A)) in
  let day3 := simulate st0 dated_A in
  (cash day1 == 500 /\ get (positions day1) "2024-01-02" == 5) /\
  (cash day3 == 500 /\ get (positions day3) "2024-01-02" == 5 /\
   get (positions day3) "AAPL" == 0 /\
   map ticker (trades day3) = ["2024-01-02"] /\
   ~ cash day3 == 1105) /\
  portfolio_value day3 121 == 1105.
Proof.
  cbv zeta. repeat split; try (vm_compute; reflexivity).
  vm_compute. discriminate.
Qed.

(** Whatever the labels, as long as the first and the third row carry
    different ones, the 5 units bought on day 1 are still held under the
    first label when the pass is over. *)
Lemma scenarioA_position_kept (l1 l2 l3 nm : string) :
  l1 <> l3 ->
  get (positions (simulate (init 1000 (1 # 2)) (scenarioA l1 l2 l3 nm))) l1 == 5.
Proof.
  intros Hne. unfold simulate, simulate_from, scenarioA. cbn [rows df_name fold_left].
  rewrite (step_buy _ _ (mkRow l1 100 1)) by reflexivity.
  rewrite (step_hold _ _ (mkRow l2 110 0)) by (cbn; lia).
  set (st1 := _execute _ _ _ _).
  assert (H1 : get (positions st1) l1 == 5).
  { subst st1. cbn. rewrite get_insert_eq. vm_compute. reflexivity. }
  destruct (Qlt_le_dec 0 (get (positions st1) nm)) as [Hpos|Hle].
  - rewrite step_sell_exec by (cbn; auto). cbn [_execute positions name].
    rewrite get_insert_ne by auto. exact H1.
  - rewrite step_sell_noop by (cbn; auto). exact H1.
Qed.

(** As long as the first row label is not the frame name, the sell row
    finds nothing under the frame name and the cash stays at 500. *)
Lemma scenarioA_no_sale (l1 l2 l3 nm : string) :
  l1 <> nm ->
  cash (simulate (init 1000 (1 # 2)) (scenarioA l1 l2 l3 nm)) == 500 /\
  length (trades (simulate (init 1000 (1 # 2)) (scenarioA l1 l2 l3 nm))) = 1%nat.
Proof.
  intros Hne. unfold simulate, simulate_from, scenarioA. cbn [rows df_name fold_left].
  rewrite (step_buy _ _ (mkRow l1 100 1)) by reflexivity.
  rewrite (step_hold _ _ (mkRow l2 110 0)) by (cbn; lia).
  rewrite step_sell_noop.
  - split; [vm_compute|]; reflexivity.
  - reflexivity.
  - cbn [_execute positions name]. rewrite get_insert_ne by assumption.
    discriminate.
Qed.

(** With one key for everything the scenario's figures come out. *)
Lemma scenarioA_single_key :
  let st := simulate (init 1000 (1 # 2)) (scenarioA "AAPL" "AAPL" "AAPL" "AAPL") in
  cash st == 1105 /\ get (positions st) "AAPL" == 0 /\
  portfolio_value st 121 == 1105.
Proof. cbv zeta. repeat split; vm_compute; reflexivity. Qed.

(** The trade log only grows at its end. *)
Lemma step_trades (nm : string) (st : State) (r : Row) :
  trades (step nm st r) = trades st \/
  exists q, trades (step nm st r) = trades st ++ [mkTrade (name r) q (Close r)].
Proof.
  unfold step. repeat case_match; cbn; eauto.
Qed.

Lemma simulate_from_trades_prefix (data : DataFrame) (rs : list Row) (st : State) :
  exists l, trades (simulate_from data st rs) = trades st ++ l.
Proof.
  revert st. induction rs as [|r rs IH]; intros st.
  - exists []. cbn. now rewrite app_nil_r.
  - cbn. destruct (IH (step (df_name data) st r)) as [l Hl].
    unfold simulate_from in Hl. rewrite Hl.
    destruct (step_trades (df_name data) st r) as [->|[q ->]]; eauto.
    rewrite <- app_assoc. eauto.
Qed.

(** C9 (as the code has it): the record appended by [_execute] holds the key
    it was called with, the signed quantity and the price, and nothing else;
    under [simulate] a step appends at most one record, whose key is the
    row's label and whose price is the row's close; records already in the
    log stay in place, unchanged, in every later state of the pass. *)
Theorem trade_record_contents
    (data : DataFrame) (st0 : State) (pre post : list Row) (r : Row) :
  rows data = pre ++ r :: post ->
  (forall st tk q p, trades (_execute st tk q p) = trades st ++ [mkTrade tk q p]) /\
  (trades (simulate_from data st0 (pre ++ [r])) = trades (simulate_from data st0 pre) \/
   exists q, trades (simulate_from data st0 (pre ++ [r])) =
             trades (simulate_from data st0 pre) ++ [mkTrade (name r) q (Close r)]) /\
  (exists l, trades (simulate st0 data) = trades (simulate_from data st0 (pre ++ [r])) ++ l).
Proof.
  intros Hrows. split; [reflexivity|]. split.
  - rewrite simulate_from_snoc. apply step_trades.
  - unfold simulate. rewrite Hrows.
    change (pre ++ r :: post) with (pre ++ [r] ++ post).
    rewrite app_assoc, simulate_from_app. apply simulate_from_trades_prefix.
Qed.

Lemma trade_record_contents_witness :
  rows two_buys = [] ++ mkRow "2024-01-02" 100 1 :: [mkRow "2024-01-03" 50 1] /\
  exists l, trades (simulate (init 1000 (1 # 2)) two_buys) =
            trades (simulate_from two_buys (init 1000 (1 # 2))
                      ([] ++ [mkRow "2024-01-02" 100 1])) ++ l.
Proof.
  split; [reflexivity|].
  apply (trade_record_contents two_buys (init 1000 (1 # 2)) []
           [mkRow "2024-01-03" 50 1] (mkRow "2024-01-02" 100 1)).
  reflexivity.
Defined.

(** The record logged for the buy of [overdrawn_buy] carries the row label,
    not the frame name, and the very same record is logged when the buy
    happens one position later in the series ([late_buy]). *)
Lemma trade_record_without_instrument_or_index :
  let t := mkTrade "2024-01-02" (1000 * (1 # 2) / 100) 100 in
  trades (simulate (init 1000 (1 # 2)) overdrawn_buy) = [t] /\
  trades (simulate (init 1000 (1 # 2)) late_buy) = [t] /\
  ticker t <> df_name overdrawn_buy /\
  rows overdrawn_buy !! 0%nat = Some (mkRow "2024-01-02" 100 1) /\
  rows late_buy !! 1%nat = Some (mkRow "2024-01-02" 100 1).
Proof.
  cbv zeta. repeat split. cbn. discriminate.
Qed.

(** ** The pass when no row label equals the frame name *)

Section DatedRows.

Variable nm : string.

Lemma step_no_name_entry (st : State) (r : Row) :
  name r <> nm -> no_name_entry nm st ->
  no_name_entry nm (step nm st r) /\ (signal r = (-1)%Z -> step nm st r = st).
Proof.
  unfold no_name_entry. intros Hk Hnone.
  assert (Hget : get (positions st) nm = 0) by (unfold get; now rewrite Hnone).
  split.
  - unfold step. rewrite Hget. cbn.
    destruct (signal r =? 1)%Z; [|destruct (signal r =? -1)%Z]; auto.
    cbn. now rewrite lookup_insert_ne.
  - intros Hs. apply step_sell_noop; [assumption|].
    rewrite Hget. apply Qle_refl.
Qed.

Lemma run_no_name_entry (rs : list Row) (st : State) :
  (forall r, In r rs -> name r <> nm) -> no_name_entry nm st ->
  no_name_entry nm (fold_left (step nm) rs st).
Proof.
  revert st. induction rs as [|r rs IH]; intros st Hk Hst; [exact Hst|].
  cbn. apply IH.
  - intros r' Hin. apply Hk. now right.
  - apply step_no_name_entry; [apply Hk; now left | assumption].
Qed.

(** The log of such a pass: one record per buy row, in order, under the
    row's label at the row's close. *)
Lemma run_dated_log (rs : list Row) (st : State) :
  (forall r, In r rs -> name r <> nm) -> no_name_entry nm st ->
  map (fun t => (ticker t, price t)) (trades (fold_left (step nm) rs st)) =
    map (fun t => (ticker t, price t)) (trades st) ++
    map (fun r => (name r, Close r)) (List.filter (fun r => (signal r =? 1)%Z) rs).
Proof.
  revert st. induction rs as [|r rs IH]; intros st Hk Hnone.
  - cbn [fold_left List.filter map]. now rewrite app_nil_r.
  - assert (Hkr : name r <> nm) by (apply Hk; now left).
    destruct (step_no_name_entry st r Hkr Hnone) as [Hnone' Hsell].
    cbn [fold_left]. rewrite IH; [|intros r' Hin; apply Hk; now right|assumption].
    cbn [List.filter].
    destruct (Z.eqb_spec (signal r) 1) as [Hbuy|Hnb].
    + rewrite step_buy by assumption. cbn [_execute trades map].
      rewrite map_app. cbn [map ticker price]. now rewrite <- app_assoc.
    + assert (Hsame : step nm st r = st).
      { destruct (Z.eq_dec (signal r) (-1)%Z) as [Hs|Hs]; [auto|].
        now apply step_hold. }
      now rewrite Hsame.
Qed.

End DatedRows.

Lemma In_prefix {A : Type} (l pre post : list A) (x : A) :
  l = pre ++ post -> In x pre -> In x l.
Proof. intros -> Hin. apply in_or_app. now left. Qed.

(** C10 (as the code has it): when no row label equals the frame name, the
    position under the frame name is absent in every state of the pass, so
    the guard of the sell branch is never true and a sell row leaves the
    state as it was; every record of the final log is the buy of a row with
    signal 1, under that row's label at that row's close.  Nothing is said
    of the sign of the quantities or of the cash. *)
Theorem dated_rows_never_sell (data : DataFrame) (c0 rf : Q) :
  (forall r, In r (rows data) -> name r <> df_name data) ->
  (forall pre post, rows data = pre ++ post ->
     positions (simulate_from data (init c0 rf) pre) !! df_name data = None /\
     Qgtb (get (positions (simulate_from data (init c0 rf) pre)) (df_name data)) 0 = false) /\
  (forall pre r post, rows data = pre ++ r :: post -> signal r = (-1)%Z ->
     simulate_from data (init c0 rf) (pre ++ [r]) = simulate_from data (init c0 rf) pre) /\
  (forall t, In t (trades (simulate (init c0 rf) data)) ->
     exists r, In r (rows data) /\ signal r = 1%Z /\
               ticker t = name r /\ price t = Close r).
Proof.
  intros Hk.
  assert (Hnone : forall pre post, rows data = pre ++ post ->
            no_name_entry (df_name data) (simulate_from data (init c0 rf) pre)).
  { intros pre post Hrows. apply run_no_name_entry; [|reflexivity].
    intros r Hin. apply Hk. eapply In_prefix; eauto. }
  split; [|split].
  - intros pre post Hrows. pose proof (Hnone pre post Hrows) as Hn.
    split; [exact Hn|]. unfold no_name_entry in Hn. unfold get. now rewrite Hn.
  - intros pre r post Hrows Hs. rewrite simulate_from_snoc.
    apply (step_no_name_entry (df_name data)); [|eapply Hnone; eauto|assumption].
    apply Hk. rewrite Hrows. apply in_elt.
  - intros t Hin.
    pose proof (run_dated_log (df_name data) (rows data) (init c0 rf) Hk eq_refl)
      as Hlog.
    cbn [init trades map app] in Hlog.
    apply (in_map (fun t => (ticker t, price t))) in Hin.
    unfold simulate, simulate_from in Hin. rewrite Hlog in Hin.
    apply in_map_iff in Hin. destruct Hin as (r & Heq & Hr).
    apply filter_In in Hr. destruct Hr as [Hr Hs].
    injection Heq as Hn Hc. exists r. repeat split; auto.
    now apply Z.eqb_eq.
Qed.

(** Two inputs on which the sign consequences fail although no row label
    equals the frame name.  A buy made on a ledger opened with -1000 logs a
    negative quantity and takes the row's position entry from 0 to a
    negative amount.  And in binary64, with cash 1000, risk fraction 1 and
    positive closes, the buy at 7.5 leaves a negative cash (the product of
    the rounded quantity and the close exceeds 1000), after which the buy at
    100 has a negative quantity. *)
Lemma overdrawn_buy_negative_quantity :
  ((forall r, In r (rows overdrawn_buy) -> name r <> df_name overdrawn_buy) /\
   (exists t, In t (trades (simulate (init (-1000) (1 # 2)) overdrawn_buy)) /\
              quantity t < 0) /\
   get (positions (simulate (init (-1000) (1 # 2)) overdrawn_buy)) "2024-01-02" <
   get (positions (init (-1000) (1 # 2))) "2024-01-02") /\
  (PrimFloat.ltb Binary64.cash_after_full_buy PrimFloat.zero = true /\
   PrimFloat.ltb Binary64.next_quantity PrimFloat.zero = true).
Proof.
  split; [split; [|split]|split].
  - intros r [<-|[]]. cbn. discriminate.
  - eexists. split; [left; reflexivity|]. reflexivity.
  - reflexivity.
  - vm_compute. reflexivity.
  - vm_compute. reflexivity.
Qed.

Lemma dated_rows_never_sell_witness :
  (forall r, In r (rows dated_A) -> name r <> df_name dated_A) /\
  simulate_from dated_A (init 1000 (1 # 2)) (firstn 2 (rows dated_A) ++ [mkRow "2024-01-04" 121 (-1)]) =
    simulate_from dated_A (init 1000 (1 # 2)) (firstn 2 (rows dated_A)) /\
  positions (simulate (init 1000 (1 # 2)) dated_A) !! "AAPL" = None.
Proof.
  assert (Hk : forall r, In r (rows dated_A) -> name r <> df_name dated_A).
  { intros r [<-|[<-|[<-|[]]]]; cbn; discriminate. }
  destruct (dated_rows_never_sell dated_A 1000 (1 # 2) Hk) as (Hnone & Hsell & _).
  split; [exact Hk|]. split.
  - apply (Hsell (firstn 2 (rows dated_A)) (mkRow "2024-01-04" 121 (-1)) []);
      reflexivity.
  - apply (Hnone (rows dated_A) []). now rewrite app_nil_r.
Defined.

(** ** Properties of the analyzer *)

Lemma length_np_diff (l : list Q) : length (np_diff l) = (length l - 1)%nat.
Proof.
  induction l as [|x [|y tl] IH]; try reflexivity.
  change (np_diff (x :: y :: tl)) with ((y - x) :: np_diff (y :: tl)).
  cbn [length] in *. rewrite IH. lia.
Qed.

Lemma length_removelast (l : list Q) : length (removelast l) = (length l - 1)%nat.
Proof.
  induction l as [|x [|y tl] IH]; try reflexivity.
  change (removelast (x :: y :: tl)) with (x :: removelast (y :: tl)).
  cbn [length] in *. rewrite IH. lia.
Qed.

Lemma np_diff_lookup (l : list Q) (i : nat) (a b : Q) :
  l !! i = Some a -> l !! S i = Some b -> np_diff l !! i = Some (b - a).
Proof.
  revert i. induction l as [|x [|y tl] IH]; intros i Ha Hb; [inversion Ha| |].
  - destruct i as [|[|i]]; inversion Hb.
  - change (np_diff (x :: y :: tl)) with ((y - x) :: np_diff (y :: tl)).
    destruct i as [|i].
    + cbn in Ha, Hb. now inversion Ha; inversion Hb.
    + cbn. apply IH; assumption.
Qed.

Lemma removelast_lookup (l : list Q) (i : nat) (a b : Q) :
  l !! i = Some a -> l !! S i = Some b -> removelast l !! i = Some a.
Proof.
  revert i. induction l as [|x [|y tl] IH]; intros i Ha Hb; [inversion Ha| |].
  - destruct i as [|[|i]]; inversion Hb.
  - change (removelast (x :: y :: tl)) with (x :: removelast (y :: tl)).
    destruct i as [|i]; [exact Ha|].
    cbn. apply IH; assumption.
Qed.

(** Entry [i] of [np.diff(v) / v[:-1]]. *)
Lemma relative_change_lookup (v : list Q) (i : nat) (a b : Q) :
  v !! i = Some a -> v !! S i = Some b ->
  np_divide (np_diff v) (removelast v) !! i = Some ((b - a) / a).
Proof.
  intros Ha Hb. unfold np_divide. apply lookup_zip_with_Some.
  exists (b - a), a. split; [reflexivity|]. split.
  - now apply np_diff_lookup.
  - now apply (removelast_lookup v i a b).
Qed.

Lemma length_relative_change (v : list Q) :
  length (np_divide (np_diff v) (removelast v)) = (length v - 1)%nat.
Proof.
  unfold np_divide. rewrite length_zip_with, length_np_diff, length_removelast. lia.
Qed.

Lemma returns_length (st : State) (data : DataFrame) :
  length (returns st data) = (length (rows data) - 1)%nat.
Proof.
  unfold returns. rewrite length_relative_change.
  unfold valuations. now rewrite length_map.
Qed.

Lemma returns_short (st : State) (data : DataFrame) :
  (length (rows data) < 2)%nat -> returns st data = [].
Proof.
  intros Hn. apply length_zero_iff_nil. rewrite returns_length. lia.
Qed.

(** C5 (as the code has it): [returns] values every row of the series with
    one and the same ledger, the one in place when it is called; called
    after the pass, that is the final cash and the final positions.  It
    produces [n] valuations [V] and [n - 1] returns,
    [R[i] = (V[i+1] - V[i]) / V[i]] for every [i] with [i + 1 < n]; with
    fewer than 2 rows the result is empty. *)
Theorem returns_from_final_ledger (data : DataFrame) (c0 rf : Q) :
  valuations (simulate (init c0 rf) data) data =
    map (fun row => cash (simulate (init c0 rf) data) +
                    pos_value (positions (simulate (init c0 rf) data)) (Close row))
        (rows data) /\
  length (valuations (simulate (init c0 rf) data) data) = length (rows data) /\
  length (returns (simulate (init c0 rf) data) data) = (length (rows data) - 1)%nat /\
  (forall i v0 v1,
     valuations (simulate (init c0 rf) data) data !! i = Some v0 ->
     valuations (simulate (init c0 rf) data) data !! S i = Some v1 ->
     returns (simulate (init c0 rf) data) data !! i = Some ((v1 - v0) / v0)) /\
  ((length (rows data) < 2)%nat -> returns (simulate (init c0 rf) data) data = []).
Proof.
  split; [reflexivity|]. split; [apply length_map|].
  split; [apply returns_length|]. split.
  - intros i v0 v1 H0 H1. now apply relative_change_lookup.
  - apply returns_short.
Qed.

Lemma returns_from_final_ledger_witness :
  (exists v0 v1,
     valuations (simulate (init 1000 (1 # 2)) late_buy) late_buy !! 0%nat = Some v0 /\
     valuations (simulate (init 1000 (1 # 2)) late_buy) late_buy !! 1%nat = Some v1 /\
     v0 == 750 /\ v1 == 1000 /\
     returns (simulate (init 1000 (1 # 2)) late_buy) late_buy !! 0%nat =
       Some ((v1 - v0) / v0)) /\
  returns (simulate (init 1000 (1 # 2)) overdrawn_buy) overdrawn_buy = [].
Proof.
  split.
  - eexists. eexists.
    split; [vm_compute; reflexivity|]. split; [vm_compute; reflexivity|].
    split; [reflexivity|]. split; [reflexivity|].
    apply (returns_from_final_ledger late_buy 1000 (1 # 2)); vm_compute; reflexivity.
  - apply (returns_from_final_ledger overdrawn_buy 1000 (1 # 2)). cbn. lia.
Defined.

(** On the two-row series [late_buy] the return series has an entry at
    index 0 = n - 2, which lies outside the half-open range [0, n-2). *)
Lemma returns_entry_at_n_minus_2 :
  length (rows late_buy) = 2%nat /\
  length (returns (simulate (init 1000 (1 # 2)) late_buy) late_buy) = 1%nat /\
  is_Some (returns (simulate (init 1000 (1 # 2)) late_buy) late_buy !! 0%nat) /\
  ~ (0 <= 0 < Z.of_nat (length (rows late_buy)) - 2)%Z.
Proof.
  split; [reflexivity|]. split; [reflexivity|]. split.
  - vm_compute. eexists. reflexivity.
  - cbn. lia.
Qed.

(** *** Trade statistics *)

(** With at least two trades the statistics are those of consecutive log
    entries. *)
Lemma trade_stats_long (log : list Trade) :
  (2 <= length log)%nat ->
  let rets := np_divide (np_diff (map price log)) (removelast (map price log)) in
  let pnl := np_multiply rets (removelast (map quantity log)) in
  length rets = (length log - 1)%nat /\
  length pnl = (length log - 1)%nat /\
  trade_stats log =
    Ok (np_sum pnl, np_mean rets,
        Qnat (np_count (map (fun x => Qgtb x 0) pnl)) / Qnat (length pnl)).
Proof.
  intros Hn rets pnl.
  assert (Hr : length rets = (length log - 1)%nat).
  { subst rets. now rewrite length_relative_change, length_map. }
  assert (Hp : length pnl = (length log - 1)%nat).
  { subst pnl. unfold np_multiply.
    rewrite length_zip_with, Hr, length_removelast, length_map. lia. }
  split; [exact Hr|]. split; [exact Hp|].
  unfold trade_stats, trade_returns_of, trade_pnl_of. rewrite !length_map.
  assert (H1 : (1 <? length log)%nat = true) by (apply Nat.ltb_lt; lia).
  rewrite H1. unfold len. cbn [items].
  fold rets. fold pnl. rewrite Hr, Hp.
  assert (H0 : (0 <? length log - 1)%nat = true) by (apply Nat.ltb_lt; lia).
  rewrite H0. reflexivity.
Qed.

Lemma trade_stats_entries (log : list Trade) (i : nat) (t t' : Trade) :
  log !! i = Some t -> log !! S i = Some t' ->
  let rets := np_divide (np_diff (map price log)) (removelast (map price log)) in
  let pnl := np_multiply rets (removelast (map quantity log)) in
  rets !! i = Some ((price t' - price t) / price t) /\
  pnl !! i = Some ((price t' - price t) / price t * quantity t).
Proof.
  intros Ht Ht' rets pnl.
  assert (Hr : rets !! i = Some ((price t' - price t) / price t)).
  { apply relative_change_lookup.
    - change (map price log) with (price <$> log). now rewrite list_lookup_fmap, Ht.
    - change (map price log) with (price <$> log). now rewrite list_lookup_fmap, Ht'. }
  split; [exact Hr|].
  unfold pnl, np_multiply. apply lookup_zip_with_Some.
  exists ((price t' - price t) / price t), (quantity t).
  split; [reflexivity|]. split; [exact Hr|].
  apply (removelast_lookup _ i (quantity t) (quantity t')).
  - change (map quantity log) with (quantity <$> log). now rewrite list_lookup_fmap, Ht.
  - change (map quantity log) with (quantity <$> log). now rewrite list_lookup_fmap, Ht'.
Qed.

(** With fewer than two trades both defaults are the Python list [[0]], and
    [trade_pnl > 0] on a list raises. *)
Lemma trade_stats_short (log : list Trade) :
  (length log < 2)%nat -> trade_stats log = Raise TypeError.
Proof.
  intros Hn.
  unfold trade_stats, trade_returns_of, trade_pnl_of. rewrite !length_map.
  assert (H1 : (1 <? length log)%nat = false) by (apply Nat.ltb_ge; lia).
  rewrite H1. reflexivity.
Qed.

Lemma python_valued_traded (st : State) :
  (0 < length (trades st))%nat -> python_valued st = false.
Proof.
  intros Hn. unfold python_valued.
  destruct (trades st); [cbn in Hn; lia|]. cbn. apply andb_false_r.
Qed.

Lemma zero_division_traded (st : State) (data : DataFrame) :
  (0 < length (trades st))%nat -> zero_division st data = false.
Proof.
  intros Hn. unfold zero_division. destruct (rows data); [reflexivity|].
  now rewrite python_valued_traded.
Qed.

Section AnalyzerFacts.

Variable power : Q -> Q -> Q.
Variable np_sqrt : Q -> Q.

Lemma valuation_stats_nonempty (st : State) (data : DataFrame) :
  rows data <> [] -> zero_division st data = false ->
  exists vs, valuation_stats power np_sqrt st data = Ok vs.
Proof.
  intros Hne Hz. unfold valuation_stats, zero_division, py_div in *.
  destruct (rows data) as [|r tl]; [congruence|].
  cbn [iloc_first iloc_last bind]. rewrite Hz. cbn [bind]. eauto.
Qed.

Lemma valuation_stats_empty (st : State) (data : DataFrame) :
  rows data = [] -> valuation_stats power np_sqrt st data = Raise IndexError.
Proof. intros He. unfold valuation_stats. now rewrite He. Qed.

Lemma valuation_stats_zero_division (st : State) (data : DataFrame) :
  zero_division st data = true ->
  valuation_stats power np_sqrt st data = Raise ZeroDivisionError.
Proof.
  intros Hz. unfold valuation_stats, zero_division, py_div in *.
  destruct (rows data) as [|r tl]; [discriminate|].
  cbn [iloc_first iloc_last bind]. now rewrite Hz.
Qed.

Lemma performance_summary_short_log (st : State) (data : DataFrame) :
  rows data <> [] -> zero_division st data = false ->
  (length (trades st) < 2)%nat ->
  performance_summary power np_sqrt st data = Raise TypeError.
Proof.
  intros Hne Hz Hlog. unfold performance_summary.
  destruct (valuation_stats_nonempty st data Hne Hz) as [vs ->].
  cbn [bind]. now rewrite trade_stats_short.
Qed.

Lemma performance_summary_long_log (st : State) (data : DataFrame) :
  rows data <> [] -> (2 <= length (trades st))%nat ->
  exists s, performance_summary power np_sqrt st data = Ok s.
Proof.
  intros Hne Hlog. unfold performance_summary.
  destruct (valuation_stats_nonempty st data Hne) as [[[[tr ar] vol] sh] ->].
  { apply zero_division_traded. lia. }
  destruct (trade_stats_long (trades st) Hlog) as (_ & _ & ->).
  cbn [bind]. eauto.
Qed.

Lemma performance_summary_sharpe (st : State) (data : DataFrame) (s : Summary) :
  performance_summary power np_sqrt st data = Ok s ->
  Sharpe_Ratio s = sharpe_of (Annualized_Return s) (Volatility s).
Proof.
  unfold performance_summary, valuation_stats.
  destruct (iloc_first (rows data)) as [r0|e]; [|discriminate].
  destruct (iloc_last (rows data)) as [rn|e]; [|discriminate].
  cbn [bind].
  destruct (py_div _ _ _) as [tr|e]; [|discriminate].
  cbn [bind].
  destruct (trade_stats (trades st)) as [[[pnl avg] win]|e]; [|discriminate].
  cbn [bind]. intros [= <-]. reflexivity.
Qed.

End AnalyzerFacts.

(** C6: with fewer than two trades [performance_summary] does not return
    zeros, it raises [TypeError] at the win-rate line: on an empty trade log
    ([all_hold]) and on a log of one trade ([dated_A]), for any
    interpretation of the two float primitives. *)
Theorem short_trade_log_raises (power : Q -> Q -> Q) (np_sqrt : Q -> Q) :
  trades (simulate (init 1000 (1 # 2)) all_hold) = [] /\
  length (trades (simulate (init 1000 (1 # 2)) dated_A)) = 1%nat /\
  trade_stats (trades (simulate (init 1000 (1 # 2)) all_hold)) = Raise TypeError /\
  trade_stats (trades (simulate (init 1000 (1 # 2)) dated_A)) = Raise TypeError /\
  performance_summary power np_sqrt (simulate (init 1000 (1 # 2)) all_hold) all_hold
    = Raise TypeError /\
  performance_summary power np_sqrt (simulate (init 1000 (1 # 2)) dated_A) dated_A
    = Raise TypeError.
Proof.
  split; [reflexivity|]. split; [reflexivity|].
  split; [reflexivity|]. split; [reflexivity|]. split.
  - apply performance_summary_short_log;
      [discriminate | vm_compute; reflexivity | vm_compute; lia].
  - apply performance_summary_short_log;
      [discriminate | vm_compute; reflexivity | vm_compute; lia].
Qed.

(** C7 (as the code has it): a series with fewer than 2 rows is not
    rejected for its length.  [returns] yields the empty return series.  On
    an empty series the summary raises [IndexError] at the first-row
    lookup.  On a one-row series the valuation statistics are computed: the
    total return is [(v - v) / v] for the row's valuation [v] (zero when
    [v] is not), the volatility is [nan] and the Sharpe ratio is 0; the one
    exception is a backtester that has not traded and values the row at
    zero, where the division of Python numbers raises
    [ZeroDivisionError]. *)
Theorem short_series_not_rejected
    (power : Q -> Q -> Q) (np_sqrt : Q -> Q) (st : State) (data : DataFrame) :
  (length (rows data) < 2)%nat ->
  returns st data = [] /\
  (rows data = [] ->
   valuation_stats power np_sqrt st data = Raise IndexError /\
   performance_summary power np_sqrt st data = Raise IndexError) /\
  (forall r, rows data = [r] ->
   (python_valued st = true -> portfolio_value st (Close r) == 0 ->
    valuation_stats power np_sqrt st data = Raise ZeroDivisionError /\
    performance_summary power np_sqrt st data = Raise ZeroDivisionError) /\
   (python_valued st = false \/ ~ portfolio_value st (Close r) == 0 ->
    valuation_stats power np_sqrt st data =
      Ok ((portfolio_value st (Close r) - portfolio_value st (Close r))
            / portfolio_value st (Close r),
          power (1 + (portfolio_value st (Close r) - portfolio_value st (Close r))
                       / portfolio_value st (Close r)) (252 / Qnat 1) - 1,
          NaN, Fin 0)) /\
   (~ portfolio_value st (Close r) == 0 ->
    (portfolio_value st (Close r) - portfolio_value st (Close r))
      / portfolio_value st (Close r) == 0)).
Proof.
  intros Hn. split; [now apply returns_short|]. split.
  - intros He. split.
    + now apply valuation_stats_empty.
    + unfold performance_summary. now rewrite valuation_stats_empty.
  - intros r Hr. split; [|split].
    + intros Hpy Hv.
      assert (Hz : zero_division st data = true).
      { unfold zero_division. rewrite Hr, Hpy. cbn. now apply Qeq_bool_iff. }
      split.
      * now apply valuation_stats_zero_division.
      * unfold performance_summary. now rewrite valuation_stats_zero_division.
    + intros Hok.
      assert (Hz : python_valued st && Qeq_bool (portfolio_value st (Close r)) 0 = false).
      { destruct Hok as [->|Hv]; [reflexivity|].
        apply andb_false_iff. right. apply not_true_iff_false.
        intros Hq. apply Hv. now apply Qeq_bool_iff. }
      unfold valuation_stats, py_div.
      rewrite (returns_short st data Hn), Hr.
      cbn [iloc_first iloc_last bind List.last]. rewrite Hz. reflexivity.
    + intros Hv. field. exact Hv.
Qed.

Lemma short_series_not_rejected_witness :
  (length (rows overdrawn_buy) < 2)%nat /\
  returns (simulate (init 1000 (1 # 2)) overdrawn_buy) overdrawn_buy = [] /\
  (exists tr ar,
     valuation_stats power_floor sqrt_floor
       (simulate (init 1000 (1 # 2)) overdrawn_buy) overdrawn_buy
     = Ok (tr, ar, NaN, Fin 0) /\ tr == 0) /\
  valuation_stats power_floor sqrt_floor (init 0 (1 # 2))
    (mkData "AAPL" [mkRow "2024-01-02" 100 0]) = Raise ZeroDivisionError.
Proof.
  assert (Hn : (length (rows overdrawn_buy) < 2)%nat) by (cbn; lia).
  destruct (short_series_not_rejected power_floor sqrt_floor
              (simulate (init 1000 (1 # 2)) overdrawn_buy) overdrawn_buy Hn)
    as (Hret & _ & Hone).
  destruct (Hone (mkRow "2024-01-02" 100 1) eq_refl) as (_ & Hvs & Htr).
  split; [exact Hn|]. split; [exact Hret|]. split.
  - eexists. eexists. split; [apply Hvs; left; reflexivity|].
    apply Htr. vm_compute. discriminate.
  - assert (Hn0 : (length (rows (mkData "AAPL" [mkRow "2024-01-02" 100 0])) < 2)%nat)
      by (cbn; lia).
    destruct (short_series_not_rejected power_floor sqrt_floor (init 0 (1 # 2))
                (mkData "AAPL" [mkRow "2024-01-02" 100 0]) Hn0)
      as (_ & _ & Hone0).
    destruct (Hone0 (mkRow "2024-01-02" 100 0) eq_refl) as (Hzd & _ & _).
    apply Hzd; reflexivity.
Defined.

(** A one-row series goes through [returns] and the valuation statistics
    without any error; the figures computed are zeros and a [nan]. *)
Lemma one_row_series_accepted :
  length (rows overdrawn_buy) = 1%nat /\
  returns (simulate (init 1000 (1 # 2)) overdrawn_buy) overdrawn_buy = [] /\
  exists tr ar,
    valuation_stats power_floor sqrt_floor
      (simulate (init 1000 (1 # 2)) overdrawn_buy) overdrawn_buy
    = Ok (tr, ar, NaN, Fin 0) /\ tr == 0 /\ ar == 0.
Proof.
  split; [reflexivity|]. split; [reflexivity|].
  eexists. eexists. split; [reflexivity|].
  split; vm_compute; reflexivity.
Qed.

(** C8: the Sharpe ratio is [(annual_return - 0.02) / volatility] when the
    volatility is positive and 0 when it is zero (or below) or [nan]; the
    quotient is not evaluated in the second case.  The summary returned by
    [performance_summary] carries exactly this value, and the summary is
    returned whatever the volatility is, as soon as the series is not empty
    and the log has two trades. *)
Theorem sharpe_policy (power : Q -> Q -> Q) (np_sqrt : Q -> Q) :
  (forall ar v, 0 < v -> sharpe_of ar (Fin v) = Fin ((ar - (2 # 100)) / v)) /\
  (forall ar v, v <= 0 -> sharpe_of ar (Fin v) = Fin 0) /\
  (forall ar, sharpe_of ar NaN = Fin 0) /\
  (forall st data s,
     performance_summary power np_sqrt st data = Ok s ->
     Sharpe_Ratio s = sharpe_of (Annualized_Return s) (Volatility s)) /\
  (forall st data,
     rows data <> [] -> (2 <= length (trades st))%nat ->
     exists s, performance_summary power np_sqrt st data = Ok s).
Proof.
  split; [|split; [|split; [|split]]].
  - intros ar v Hv. unfold sharpe_of. cbn [npf_gtb].
    apply Qgtb_lt in Hv. now rewrite Hv.
  - intros ar v Hv. unfold sharpe_of. cbn [npf_gtb].
    apply Qgtb_le in Hv. now rewrite Hv.
  - reflexivity.
  - apply performance_summary_sharpe.
  - apply performance_summary_long_log.
Qed.

Lemma sharpe_policy_witness :
  sharpe_of (1 # 10) (Fin (1 # 5)) = Fin (((1 # 10) - (2 # 100)) / (1 # 5)) /\
  sharpe_of (1 # 10) (Fin 0) = Fin 0 /\
  exists s,
    performance_summary power_floor sqrt_floor
      (simulate (init 1000 (1 # 2)) two_buys) two_buys = Ok s /\
    Sharpe_Ratio s = sharpe_of (Annualized_Return s) (Volatility s) /\
    Sharpe_Ratio s = Fin 0.
Proof.
  destruct (sharpe_policy power_floor sqrt_floor) as (Hpos & Hzero & _ & Hsum & Hok).
  split; [apply Hpos; reflexivity|].
  split; [apply Hzero; discriminate|].
  destruct (Hok (simulate (init 1000 (1 # 2)) two_buys) two_buys) as [s Hs];
    [discriminate | vm_compute; lia |].
  exists s. split; [exact Hs|]. split; [now apply Hsum in Hs|].
  vm_compute in Hs. injection Hs as <-. reflexivity.
Defined.

(** ** Invariants of the pass *)

(** A row either leaves the state alone or executes one trade under its own
    label at its own close; only rows with signal 1 or -1 do the latter. *)
Lemma step_cases (nm : string) (st : State) (r : Row) :
  step nm st r = st \/
  (is_order r = true /\
   exists q, step nm st r = _execute st (name r) q (Close r)).
Proof.
  unfold step, is_order.
  destruct (signal r =? 1)%Z; [right; eauto|].
  destruct (signal r =? -1)%Z; [|now left].
  destruct (Qgtb _ _); [right; eauto | now left].
Qed.

(** Whatever [_execute] preserves, the whole pass preserves. *)
Lemma simulate_from_invariant (P : State -> Prop) (data : DataFrame) :
  (forall st tk q p, P st -> P (_execute st tk q p)) ->
  forall rs st, P st -> P (simulate_from data st rs).
Proof.
  intros Hexec rs. induction rs as [|r rs IH]; intros st Hst; [exact Hst|].
  cbn. apply IH.
  destruct (step_cases (df_name data) st r) as [->|(_ & q & ->)]; auto.
Qed.

Lemma log_cash_snoc (c0 : Q) (log : list Trade) (t : Trade) :
  log_cash c0 (log ++ [t]) = log_cash c0 log - quantity t * price t.
Proof. unfold log_cash. now rewrite fold_left_app. Qed.

Lemma log_position_snoc (k : string) (log : list Trade) (t : Trade) :
  log_position k (log ++ [t]) =
  if decide (ticker t = k) then log_position k log + quantity t
  else log_position k log.
Proof. unfold log_position. now rewrite fold_left_app. Qed.

(** X4: the ledger can be read back from the trade log.  After a pass
    started from a fresh backtester, the cash is the initial cash minus
    [quantity * price] of every logged trade, and the quantity held under
    any key is the sum of the logged quantities with that ticker. *)
Theorem ledger_matches_log (data : DataFrame) (c0 rf : Q) (k : string) :
  cash (simulate (init c0 rf) data) =
    log_cash c0 (trades (simulate (init c0 rf) data)) /\
  get (positions (simulate (init c0 rf) data)) k =
    log_position k (trades (simulate (init c0 rf) data)).
Proof.
  unfold simulate.
  apply (simulate_from_invariant
           (fun st => cash st = log_cash c0 (trades st) /\
                      get (positions st) k = log_position k (trades st))).
  - intros st tk q p [Hc Hp]. cbn [_execute cash positions trades]. split.
    + now rewrite log_cash_snoc, Hc.
    + rewrite log_position_snoc. cbn [ticker quantity].
      destruct (decide (tk = k)) as [->|Hne].
      * now rewrite get_insert_eq, Hp.
      * now rewrite get_insert_ne.
  - split; reflexivity.
Qed.

(** X5: the position dict has an entry exactly for the keys that occur as
    ticker in the trade log; an entry is never removed, also when its
    quantity is back at 0. *)
Theorem positions_keys_are_traded (data : DataFrame) (c0 rf : Q) (k : string) :
  is_Some (positions (simulate (init c0 rf) data) !! k) <->
  In k (map ticker (trades (simulate (init c0 rf) data))).
Proof.
  unfold simulate.
  apply (simulate_from_invariant
           (fun st => is_Some (positions st !! k) <-> In k (map ticker (trades st)))).
  - intros st tk q p IH. cbn [_execute positions trades].
    rewrite map_app, in_app_iff. cbn [map In ticker].
    destruct (decide (tk = k)) as [->|Hne].
    + rewrite lookup_insert_eq. split; [intros _; right; now left | eauto].
    + rewrite lookup_insert_ne by assumption. rewrite IH. tauto.
  - cbn. rewrite lookup_empty. split; [intros [x Hx]; discriminate | tauto].
Qed.

(** X6: a series without any signal equal to 1 or -1 leaves the backtester
    exactly as it was: cash, positions and trade log. *)
Theorem hold_only_series_is_noop (st : State) (data : DataFrame) :
  Forall (fun r => is_order r = false) (rows data) ->
  simulate st data = st.
Proof.
  unfold simulate. generalize (rows data) as rs.
  induction rs as [|r rs IH]; intros Hall; [reflexivity|].
  inversion Hall as [|? ? Hr Hrs]; subst. cbn.
  destruct (step_cases (df_name data) st r) as [->|(Ho & _)].
  - now apply IH.
  - congruence.
Qed.

Lemma hold_only_series_is_noop_witness :
  simulate (init 1000 (1 # 2)) all_hold = init 1000 (1 # 2).
Proof.
  apply (hold_only_series_is_noop (init 1000 (1 # 2)) all_hold).
  repeat constructor.
Defined.

Lemma simulate_from_log_order (data : DataFrame) (rs : list Row) (st : State) :
  exists (new : list Trade) (done : list Row),
    trades (simulate_from data st rs) = trades st ++ new /\
    done `sublist_of` List.filter is_order rs /\
    map (fun t => (ticker t, price t)) new =
    map (fun r => (name r, Close r)) done.
Proof.
  revert st. induction rs as [|r rs IH]; intros st.
  - exists [], []. cbn. rewrite app_nil_r. repeat split. constructor.
  - destruct (IH (step (df_name data) st r)) as (new & done & Hlog & Hsub & Hmap).
    cbn [simulate_from fold_left] in *. unfold simulate_from in Hlog.
    destruct (step_cases (df_name data) st r) as [Hsame|(Ho & q & Hexec)].
    + exists new, done. rewrite Hsame in Hlog |- *. split; [exact Hlog|].
      split; [|exact Hmap].
      cbn [List.filter]. destruct (is_order r); [now constructor | exact Hsub].
    + exists (mkTrade (name r) q (Close r) :: new), (r :: done).
      rewrite Hlog, Hexec. cbn [_execute trades]. split.
      * now rewrite <- app_assoc.
      * split.
        -- cbn [List.filter]. rewrite Ho. now constructor.
        -- cbn [map ticker price]. now rewrite Hmap.
Qed.

(** X7: the trade log grows in series order.  The records a pass appends
    carry, in order, the labels and closes of a subsequence of the rows with
    signal 1 or -1 (each such row is used at most once), so the pass appends
    at most as many records as there are such rows. *)
Theorem trade_log_follows_series (st : State) (data : DataFrame) :
  exists (new : list Trade) (done : list Row),
    trades (simulate st data) = trades st ++ new /\
    done `sublist_of` List.filter is_order (rows data) /\
    map (fun t => (ticker t, price t)) new =
    map (fun r => (name r, Close r)) done /\
    (length new <= length (List.filter is_order (rows data)))%nat /\
    (length new <= length (rows data))%nat.
Proof.
  destruct (simulate_from_log_order data (rows data) st)
    as (new & done & Hlog & Hsub & Hmap).
  exists new, done. repeat split; try assumption.
  - apply (f_equal length) in Hmap. rewrite !length_map in Hmap.
    rewrite Hmap. now apply sublist_length.
  - apply (f_equal length) in Hmap. rewrite !length_map in Hmap.
    rewrite Hmap. apply sublist_length in Hsub.
    pose proof (filter_length_le is_order (rows data)). lia.
Qed.

(** ** Frames whose rows are labelled apart from the frame name *)

(** X8: on a frame none of whose row labels equals the frame name, the
    pass started from a fresh backtester logs exactly the buy rows, in
    order, each under its label at its close, whatever the initial cash,
    the risk fraction and the closes; the number of logged trades is the
    number of buy rows. *)
Theorem dated_frame_logs_buys (data : DataFrame) (c0 rf : Q) :
  (forall r, In r (rows data) -> name r <> df_name data) ->
  map (fun t => (ticker t, price t)) (trades (simulate (init c0 rf) data)) =
    map (fun r => (name r, Close r))
        (List.filter (fun r => (signal r =? 1)%Z) (rows data)) /\
  length (trades (simulate (init c0 rf) data)) = buy_signals (rows data).
Proof.
  intros Hk.
  pose proof (run_dated_log (df_name data) (rows data) (init c0 rf) Hk eq_refl)
    as Hlog.
  cbn [init trades map app] in Hlog.
  split; [exact Hlog|].
  apply (f_equal length) in Hlog. now rewrite !length_map in Hlog.
Qed.

Lemma dated_frame_logs_buys_witness :
  map (fun t => (ticker t, price t)) (trades (simulate (init (-1000) 2) two_buys)) =
    [("2024-01-02", 100); ("2024-01-03", 50)] /\
  length (trades (simulate (init (-1000) 2) two_buys)) = 2%nat.
Proof.
  destruct (dated_frame_logs_buys two_buys (-1000) 2) as (Hlog & Hn).
  - intros r [<-|[<-|[]]]; cbn; discriminate.
  - split; [exact Hlog | exact Hn].
Defined.

(** A pass that logs nothing has changed nothing. *)
Lemma simulate_from_no_trade (data : DataFrame) (rs : list Row) (st : State) :
  length (trades (simulate_from data st rs)) = length (trades st) ->
  simulate_from data st rs = st.
Proof.
  revert st. induction rs as [|r rs IH]; intros st Hlen; [reflexivity|].
  cbn [simulate_from fold_left] in *.
  destruct (step_cases (df_name data) st r) as [Hsame|(_ & q & Hexec)].
  - rewrite Hsame in *. now apply IH.
  - exfalso.
    destruct (simulate_from_trades_prefix data rs (step (df_name data) st r))
      as [l Hl].
    unfold simulate_from in Hl. rewrite Hl, Hexec in Hlen.
    cbn [_execute trades] in Hlen. rewrite !length_app in Hlen. cbn in Hlen. lia.
Qed.

Lemma portfolio_value_init (c0 rf p : Q) : portfolio_value (init c0 rf) p = c0 + 0.
Proof. unfold portfolio_value, pos_value. cbn. now rewrite map_fold_empty. Qed.

Lemma zero_division_spec (st : State) (data : DataFrame) :
  zero_division st data = true <->
  exists r0 tl, rows data = r0 :: tl /\ positions st = ∅ /\ trades st = [] /\
                portfolio_value st (Close r0) == 0.
Proof.
  unfold zero_division, python_valued. destruct (rows data) as [|r0 tl].
  - split; [discriminate|]. intros (? & ? & ? & _). discriminate.
  - rewrite !andb_true_iff, !Nat.eqb_eq, Qeq_bool_iff. split.
    + intros [[Hs Hl] Hv]. exists r0, tl. split; [reflexivity|].
      split; [now apply map_size_empty_iff|].
      split; [now apply length_zero_iff_nil | exact Hv].
    + intros (r & t & [= <- <-] & Hp & Ht & Hv). rewrite Hp, Ht.
      split; [split|]; [apply map_size_empty | reflexivity | exact Hv].
Qed.

(** ** Outcome of the summary *)

(** X9: [performance_summary] has four outcomes.  [IndexError] on an empty
    frame.  [ZeroDivisionError] when the backtester has not traded (no
    position entry, empty log) and values the first row at zero, i.e. its
    cash is zero: the total return then divides Python numbers by zero.
    Otherwise [TypeError] when the log has fewer than two trades, and a
    summary when it has at least two; so a summary is returned exactly when
    the frame is not empty and the log has at least two trades. *)
Theorem performance_summary_outcome
    (power : Q -> Q -> Q) (np_sqrt : Q -> Q) (st : State) (data : DataFrame) :
  (rows data = [] ->
   performance_summary power np_sqrt st data = Raise IndexError) /\
  (forall r0 tl, rows data = r0 :: tl ->
     positions st = ∅ -> trades st = [] -> portfolio_value st (Close r0) == 0 ->
     performance_summary power np_sqrt st data = Raise ZeroDivisionError) /\
  (forall r0 tl, rows data = r0 :: tl ->
     positions st <> ∅ \/ trades st <> [] \/ ~ portfolio_value st (Close r0) == 0 ->
     (length (trades st) < 2)%nat ->
     performance_summary power np_sqrt st data = Raise TypeError) /\
  ((exists s, performance_summary power np_sqrt st data = Ok s) <->
   rows data <> [] /\ (2 <= length (trades st))%nat).
Proof.
  split; [|split; [|split]].
  - intros He. unfold performance_summary. now rewrite valuation_stats_empty.
  - intros r0 tl Hrows Hp Ht Hv. unfold performance_summary.
    rewrite valuation_stats_zero_division; [reflexivity|].
    apply zero_division_spec. exists r0, tl. auto.
  - intros r0 tl Hrows Hno Hlog.
    apply performance_summary_short_log; [rewrite Hrows; discriminate| |exact Hlog].
    apply not_true_iff_false. intros Hz. apply zero_division_spec in Hz.
    destruct Hz as (r & t & Hr & Hp & Ht & Hv).
    rewrite Hrows in Hr. injection Hr as <- <-.
    destruct Hno as [Hno|[Hno|Hno]]; auto.
  - split.
    + intros [s Hs]. destruct (rows data) as [|r tl] eqn:Hrows.
      * unfold performance_summary in Hs.
        rewrite valuation_stats_empty in Hs by assumption. discriminate.
      * split; [discriminate|].
        destruct (le_lt_dec 2 (length (trades st))) as [Hge|Hlt]; [exact Hge|].
        destruct (zero_division st data) eqn:Hz.
        -- unfold performance_summary in Hs.
           rewrite valuation_stats_zero_division in Hs by assumption. discriminate.
        -- rewrite performance_summary_short_log in Hs;
             [discriminate| |exact Hz|exact Hlt].
           rewrite Hrows. discriminate.
    + intros [Hne Hlog]. now apply performance_summary_long_log.
Qed.

Lemma performance_summary_outcome_witness :
  performance_summary power_floor sqrt_floor (init 1000 (1 # 2)) (mkData "AAPL" [])
    = Raise IndexError /\
  performance_summary power_floor sqrt_floor (init 0 (1 # 2)) all_hold
    = Raise ZeroDivisionError /\
  performance_summary power_floor sqrt_floor
    (simulate (init 1000 (1 # 2)) all_hold) all_hold = Raise TypeError /\
  exists s, performance_summary power_floor sqrt_floor
              (simulate (init 1000 (1 # 2)) two_buys) two_buys = Ok s.
Proof.
  split; [|split; [|split]].
  - apply (performance_summary_outcome power_floor sqrt_floor
             (init 1000 (1 # 2)) (mkData "AAPL" [])). reflexivity.
  - destruct (performance_summary_outcome power_floor sqrt_floor
                (init 0 (1 # 2)) all_hold) as (_ & Hz & _).
    apply (Hz (mkRow "2024-01-02" 100 0) [mkRow "2024-01-03" 110 0]);
      reflexivity.
  - destruct (performance_summary_outcome power_floor sqrt_floor
                (simulate (init 1000 (1 # 2)) all_hold) all_hold) as (_ & _ & Ht & _).
    apply (Ht (mkRow "2024-01-02" 100 0) [mkRow "2024-01-03" 110 0]);
      [reflexivity | right; right; vm_compute; discriminate | vm_compute; lia].
  - apply (performance_summary_outcome power_floor sqrt_floor
             (simulate (init 1000 (1 # 2)) two_buys) two_buys).
    split; [discriminate | vm_compute; lia].
Defined.

Lemma Qeq_bool_plus_0 (c : Q) : Qeq_bool (c + 0) 0 = Qeq_bool c 0.
Proof.
  destruct (Qeq_bool c 0) eqn:Hc.
  - apply Qeq_bool_iff. apply Qeq_bool_iff in Hc. rewrite Hc. reflexivity.
  - apply not_true_iff_false. intros H. apply Qeq_bool_iff in H.
    apply not_true_iff_false in Hc. apply Hc. apply Qeq_bool_iff.
    rewrite <- H. ring.
Qed.

(** X10: simulating a frame of fewer than two rows with a fresh backtester
    and asking for the summary always raises.  [IndexError] when the frame
    is empty.  With one row: [ZeroDivisionError] when the initial cash is
    zero and the row is not a buy (nothing was traded, the valuation is the
    Python number 0), [TypeError] in every other case (the pass cannot log
    two trades). *)
Theorem short_run_has_no_summary
    (power : Q -> Q -> Q) (np_sqrt : Q -> Q) (data : DataFrame) (c0 rf : Q) :
  (length (rows data) < 2)%nat ->
  performance_summary power np_sqrt (simulate (init c0 rf) data) data =
    Raise (match rows data with
           | [] => IndexError
           | r :: _ =>
               if negb (signal r =? 1)%Z && Qeq_bool c0 0
               then ZeroDivisionError else TypeError
           end).
Proof.
  intros Hn. destruct (rows data) as [|r [|r' tl]] eqn:Hrows;
    [| |cbn in Hn; lia].
  - unfold performance_summary. now rewrite valuation_stats_empty.
  - unfold simulate, simulate_from. rewrite Hrows. cbn [fold_left].
    destruct (Z.eqb_spec (signal r) 1) as [Hbuy|Hnb]; cbn [negb andb].
    + rewrite step_buy by assumption.
      apply performance_summary_short_log.
      * rewrite Hrows. discriminate.
      * apply zero_division_traded. cbn. lia.
      * cbn. lia.
    + assert (Hsame : step (df_name data) (init c0 rf) r = init c0 rf).
      { destruct (Z.eq_dec (signal r) (-1)%Z) as [Hs|Hs].
        - apply step_sell_noop; [assumption|]. cbn. apply Qle_refl.
        - now apply step_hold. }
      rewrite Hsame.
      assert (Hz : zero_division (init c0 rf) data = Qeq_bool c0 0).
      { unfold zero_division. rewrite Hrows, portfolio_value_init.
        change (python_valued (init c0 rf)) with true.
        cbn [andb]. apply Qeq_bool_plus_0. }
      destruct (Qeq_bool c0 0) eqn:Hc.
      * unfold performance_summary.
        now rewrite valuation_stats_zero_division.
      * apply performance_summary_short_log; [rewrite Hrows; discriminate| exact Hz |].
        cbn. lia.
Qed.

Lemma short_run_has_no_summary_witness :
  performance_summary power_floor sqrt_floor
    (simulate (init 1000 (1 # 2)) overdrawn_buy) overdrawn_buy = Raise TypeError /\
  performance_summary power_floor sqrt_floor
    (simulate (init 0 (1 # 2)) (mkData "AAPL" [mkRow "2024-01-02" 100 (-1)]))
    (mkData "AAPL" [mkRow "2024-01-02" 100 (-1)]) = Raise ZeroDivisionError.
Proof.
  split.
  - apply (short_run_has_no_summary power_floor sqrt_floor overdrawn_buy 1000 (1 # 2)).
    cbn. lia.
  - apply (short_run_has_no_summary power_floor sqrt_floor
             (mkData "AAPL" [mkRow "2024-01-02" 100 (-1)]) 0 (1 # 2)).
    cbn. lia.
Defined.

(** ** Trade statistics of a log with at least two records *)

(** X11: with two or more logged trades the trade statistics are returned,
    computed over consecutive records whatever their tickers and sides:
    [m - 1] price returns [(price[i+1] - price[i]) / price[i]], each weighted
    by the quantity of the earlier record to give the pnl entries; the PnL
    is their sum, the average trade return the mean of the price returns and
    the win rate the share of positive pnl entries. *)
Theorem trade_stats_consecutive (log : list Trade) :
  (2 <= length log)%nat ->
  exists rets pnl : list Q,
    length rets = (length log - 1)%nat /\
    length pnl = (length log - 1)%nat /\
    (forall i t t', log !! i = Some t -> log !! S i = Some t' ->
       rets !! i = Some ((price t' - price t) / price t) /\
       pnl !! i = Some ((price t' - price t) / price t * quantity t)) /\
    trade_stats log =
      Ok (np_sum pnl,
          np_sum rets / Qnat (length log - 1),
          Qnat (length (List.filter (fun x => Qgtb x 0) pnl))
            / Qnat (length log - 1)).
Proof.
  intros Hn.
  destruct (trade_stats_long log Hn) as (Hr & Hp & Hstats).
  eexists. eexists. split; [exact Hr|]. split; [exact Hp|]. split.
  - intros i t t' Ht Ht'. now apply trade_stats_entries.
  - rewrite Hstats. unfold np_mean, np_count. rewrite Hr, Hp.
    repeat f_equal. clear.
    generalize (np_multiply
      (np_divide (np_diff (map price log)) (removelast (map price log)))
      (removelast (map quantity log))) as l.
    induction l as [|x l IH]; [reflexivity|].
    cbn [map List.filter]. destruct (Qgtb x 0); cbn [length]; now rewrite IH.
Qed.

Lemma trade_stats_consecutive_witness :
  exists rets pnl : list Q,
    rets !! 0%nat = Some ((50 - 100) / 100) /\
    pnl !! 0%nat = Some ((50 - 100) / 100 * (1000 * (1 # 2) / 100)) /\
    trade_stats (trades (simulate (init 1000 (1 # 2)) two_buys)) =
      Ok (np_sum pnl, np_sum rets / Qnat 1,
          Qnat (length (List.filter (fun x => Qgtb x 0) pnl)) / Qnat 1).
Proof.
  destruct (trade_stats_consecutive (trades (simulate (init 1000 (1 # 2)) two_buys)))
    as (rets & pnl & _ & _ & Hent & Hstats).
  - vm_compute. lia.
  - exists rets, pnl.
    destruct (Hent 0%nat (mkTrade "2024-01-02" (1000 * (1 # 2) / 100) 100)
                (mkTrade "2024-01-03"
                   ((1000 - 1000 * (1 # 2) / 100 * 100) * (1 # 2) / 50) 50))
      as [H0 H1]; [reflexivity | reflexivity |].
    split; [exact H0|]. split; [exact H1|]. exact Hstats.
Defined.

Lemma np_count_le (l : list bool) : (np_count l <= length l)%nat.
Proof. unfold np_count. apply filter_length_le. Qed.

Lemma Qnat_ratio_bounds (c n : nat) :
  (c <= n)%nat -> (0 < n)%nat -> 0 <= Qnat c / Qnat n <= 1.
Proof.
  intros Hc Hn. unfold Qnat.
  assert (Hpos : 0 < inject_Z (Z.of_nat n)).
  { change 0 with (inject_Z 0). rewrite <- Zlt_Qlt. lia. }
  split.
  - apply Qle_shift_div_l; [exact Hpos|]. rewrite Qmult_0_l.
    change 0 with (inject_Z 0). rewrite <- Zle_Qle. lia.
  - apply Qle_shift_div_r; [exact Hpos|]. rewrite Qmult_1_l.
    rewrite <- Zle_Qle. lia.
Qed.

(** X12: whenever the trade statistics are returned, the win rate lies
    between 0 and 1; and they are returned only for a log of at least two
    trades. *)
Theorem win_rate_bounds (log : list Trade) (pnl avg win : Q) :
  trade_stats log = Ok (pnl, avg, win) ->
  0 <= win <= 1 /\ (2 <= length log)%nat.
Proof.
  intros Hs.
  destruct (le_lt_dec 2 (length log)) as [Hge|Hlt].
  - split; [|exact Hge].
    destruct (trade_stats_long log Hge) as (_ & Hp & Hstats).
    rewrite Hstats in Hs. injection Hs as _ _ <-.
    apply Qnat_ratio_bounds.
    + etransitivity; [apply np_count_le|]. now rewrite length_map.
    + rewrite Hp. lia.
  - rewrite trade_stats_short in Hs by assumption. discriminate.
Qed.

Lemma win_rate_bounds_witness :
  exists pnl avg win,
    trade_stats (trades (simulate (init 1000 (1 # 2)) two_buys)) = Ok (pnl, avg, win) /\
    0 <= win <= 1.
Proof.
  assert (Hge : (2 <= length (trades (simulate (init 1000 (1 # 2)) two_buys)))%nat)
    by (vm_compute; lia).
  destruct (trade_stats_long _ Hge) as (_ & _ & Hs).
  eexists. eexists. eexists. split; [exact Hs|].
  apply (win_rate_bounds _ _ _ _ Hs).
Defined.

(** ** The return series *)

Lemma relative_change_const (c : Q) (n : nat) :
  np_divide (np_diff (c :: repeat c n)) (removelast (c :: repeat c n)) =
  repeat ((c - c) / c) n.
Proof.
  induction n as [|m IH]; [reflexivity|].
  cbn [repeat].
  change (np_diff (c :: c :: repeat c m))
    with ((c - c) :: np_diff (c :: repeat c m)).
  change (removelast (c :: c :: repeat c m))
    with (c :: removelast (c :: repeat c m)).
  unfold np_divide in *. cbn [zip_with]. now rewrite IH.
Qed.

Lemma relative_change_repeat (c : Q) (n : nat) :
  np_divide (np_diff (repeat c n)) (removelast (repeat c n)) =
  repeat ((c - c) / c) (n - 1).
Proof.
  destruct n as [|m]; [reflexivity|].
  cbn [repeat]. rewrite relative_change_const. f_equal. lia.
Qed.

(** X13: a backtester without position entries (one that never traded)
    values every row at its cash, so with a non-zero cash all [n - 1] returns
    of the series are zero, whatever the closes. *)
Theorem untraded_ledger_is_flat (st : State) (data : DataFrame) :
  positions st = ∅ -> ~ cash st == 0 ->
  Forall (fun v => v == cash st) (valuations st data) /\
  length (returns st data) = (length (rows data) - 1)%nat /\
  Forall (fun x => x == 0) (returns st data).
Proof.
  intros Hpos Hcash.
  assert (Hv : valuations st data = repeat (cash st + 0) (length (rows data))).
  { unfold valuations, portfolio_value, pos_value. rewrite Hpos.
    rewrite <- map_const. apply map_ext. intros r. now rewrite map_fold_empty. }
  split; [|split].
  - rewrite Hv. apply List.Forall_forall. intros v Hin.
    apply repeat_spec in Hin. subst v. ring.
  - apply returns_length.
  - unfold returns. rewrite Hv, relative_change_repeat.
    apply List.Forall_forall. intros x Hin. apply repeat_spec in Hin. subst x.
    field. intros H0. apply Hcash. rewrite <- H0. ring.
Qed.

Lemma untraded_ledger_is_flat_witness :
  Forall (fun x => x == 0)
    (returns (simulate (init 1000 (1 # 2)) all_hold) all_hold).
Proof.
  apply (untraded_ledger_is_flat (simulate (init 1000 (1 # 2)) all_hold) all_hold).
  - reflexivity.
  - discriminate.
Defined.

(** ** Plotting *)

Lemma py_max_spec (l : list Q) (x : Q) :
  In (py_max x l) (x :: l) /\ forall y, In y (x :: l) -> y <= py_max x l.
Proof.
  revert x. induction l as [|y tl IH]; intros x.
  - cbn. split; [now left|]. intros z [<-|[]]. apply Qle_refl.
  - cbn [py_max].
    destruct (IH (if Qgtb y x then y else x)) as [Hin Hle].
    assert (Hx : x <= (if Qgtb y x then y else x)).
    { destruct (Qgtb y x) eqn:Hg; [|apply Qle_refl].
      apply Qgtb_lt in Hg. now apply Qlt_le_weak. }
    assert (Hy : y <= (if Qgtb y x then y else x)).
    { destruct (Qgtb y x) eqn:Hg; [apply Qle_refl|]. now apply Qgtb_le in Hg. }
    split.
    + destruct Hin as [Hm|Hm].
      * rewrite <- Hm. destruct (Qgtb y x); [right; now left | now left].
      * right. now right.
    + intros z [<-|[<-|Hz]].
      * eapply Qle_trans; [exact Hx|]. apply Hle. now left.
      * eapply Qle_trans; [exact Hy|]. apply Hle. now left.
      * apply Hle. now right.
Qed.

(** X15: [plot] raises [ValueError] exactly on an empty frame.  Otherwise
    it plots, against the row labels, the valuations of all rows under the
    current ledger (the same ones [returns] uses) and a signal overlay of
    the same length: [signal * m * 0.05], where [m] is one of the valuations
    and no valuation exceeds it; so buy rows sit at 5 percent of the largest
    valuation and sell rows at minus 5 percent. *)
Theorem plot_curves (st : State) (data : DataFrame) :
  (plot st data = PlotValueError <-> rows data = []) /\
  (forall dates values overlay,
     plot st data = Plotted dates values overlay ->
     dates = map name (rows data) /\
     values = valuations st data /\
     length overlay = length values /\
     exists m,
       In m values /\ List.Forall (fun v => v <= m) values /\
       overlay = map (fun row => inject_Z (signal row) * m * (5 # 100)) (rows data)).
Proof.
  unfold plot, valuations. destruct (rows data) as [|r tl]; cbn [map].
  - split; [tauto|]. intros dates values overlay H. discriminate.
  - split; [split; discriminate|].
    intros dates values overlay [= <- <- <-].
    split; [reflexivity|]. split; [reflexivity|].
    split; [cbn [length]; now rewrite !length_map|].
    set (f := fun row => portfolio_value st (Close row)).
    destruct (py_max_spec (map f tl) (f r)) as [Hin Hle].
    exists (py_max (f r) (map f tl)). split; [exact Hin|].
    split; [|reflexivity].
    apply List.Forall_forall. exact Hle.
Qed.

Lemma plot_curves_witness :
  exists dates values overlay,
    plot (simulate (init 1000 (1 # 2)) dated_A) dated_A = Plotted dates values overlay /\
    dates = ["2024-01-02"; "2024-01-03"; "2024-01-04"] /\
    length overlay = length values.
Proof.
  eexists. eexists. eexists. split; [reflexivity|].
  destruct (plot_curves (simulate (init 1000 (1 # 2)) dated_A) dated_A) as [_ H].
  destruct (H _ _ _ eq_refl) as (Hd & _ & Hl & _).
  split; [exact Hd | exact Hl].
Defined.

(** ** The main runner *)

Lemma In_zip_with {A B C : Type} (f : A -> B -> C) (l : list A) (k : list B) (z : C) :
  In z (zip_with f l k) -> exists x y, z = f x y /\ In x l /\ In y k.
Proof.
  intros Hin. apply list_elem_of_In, elem_of_zip_with in Hin.
  destruct Hin as (x & y & -> & Hx & Hy).
  exists x, y. now rewrite <- !list_elem_of_In.
Qed.

Lemma np_where_gt_values (a b : list npfloat) (s : Z) :
  In s (np_where_gt a b) -> s = 1%Z \/ s = (-1)%Z.
Proof.
  intros Hin. apply In_zip_with in Hin. destruct Hin as (x & y & -> & _ & _).
  destruct (npf_gt x y); auto.
Qed.

Lemma buy_signals_none (rs : list Row) :
  (forall r, In r rs -> signal r = (-1)%Z) -> buy_signals rs = 0%nat.
Proof.
  intros Hall. unfold buy_signals. induction rs as [|r rs IH]; [reflexivity|].
  cbn [List.filter]. rewrite (Hall r) by now left. cbn.
  apply IH. intros r' Hin. apply Hall. now right.
Qed.

Section MainFacts.

Variable sma_indicator : list Q -> nat -> list npfloat.
Variable power : Q -> Q -> Q.
Variable np_sqrt : Q -> Q.

Lemma main_frame_row (tk : string) (fetched : list (string * Q)) (r : Row) :
  In r (rows (main_frame sma_indicator tk fetched)) ->
  In (name r, Close r) fetched /\ (signal r = 1%Z \/ signal r = (-1)%Z).
Proof.
  unfold main_frame. cbn [rows]. intros Hin.
  apply In_zip_with in Hin. destruct Hin as ([lbl c] & sg & -> & Hlc & Hs).
  split; [exact Hlc|]. cbn [signal]. now apply np_where_gt_values in Hs.
Qed.

Lemma main_frame_nan (tk : string) (fetched : list (string * Q)) (i : nat) (r : Row) :
  rows (main_frame sma_indicator tk fetched) !! i = Some r ->
  sma_indicator (map snd fetched) 50%nat !! i = Some NaN \/
  sma_indicator (map snd fetched) 200%nat !! i = Some NaN ->
  signal r = (-1)%Z.
Proof.
  unfold main_frame. cbn [rows]. intros Hr Hnan.
  apply lookup_zip_with_Some in Hr. destruct Hr as (lc & sg & -> & _ & Hs).
  unfold np_where_gt in Hs. apply lookup_zip_with_Some in Hs.
  destruct Hs as (x & y & -> & Hx & Hy). cbn [signal].
  destruct Hnan as [Hn|Hn].
  - rewrite Hn in Hx. injection Hx as <-. reflexivity.
  - rewrite Hn in Hy. injection Hy as <-. now destruct x.
Qed.

Lemma main_frame_length (tk : string) (fetched : list (string * Q)) :
  (forall close w, length (sma_indicator close w) = length close) ->
  length (rows (main_frame sma_indicator tk fetched)) = length fetched /\
  map (fun r => (name r, Close r)) (rows (main_frame sma_indicator tk fetched))
    = fetched.
Proof.
  intros Hlen. unfold main_frame. cbn [rows].
  assert (Hsig : length (np_where_gt (sma_indicator (map snd fetched) 50%nat)
                           (sma_indicator (map snd fetched) 200%nat)) = length fetched).
  { unfold np_where_gt. rewrite length_zip_with, !Hlen, length_map. lia. }
  split.
  - rewrite length_zip_with, Hsig. lia.
  - apply (fmap_zip_with_l (fun lc s => mkRow (fst lc) (snd lc) s)
                           (fun r => (name r, Close r))).
    + now intros [lbl c] sg.
    + rewrite Hsig. lia.
Qed.

End MainFacts.

(** X16: the signal column [main] builds never holds: every row of the
    frame carries 1 or -1, and -1 wherever either moving average is [nan];
    the rows keep the downloaded labels and closes (given that the moving
    average returns one value per close). *)
Theorem main_signals_never_hold
    (sma_indicator : list Q -> nat -> list npfloat)
    (tk : string) (fetched : list (string * Q)) :
  List.Forall (fun r => signal r = 1%Z \/ signal r = (-1)%Z)
              (rows (main_frame sma_indicator tk fetched)) /\
  (forall i r,
     rows (main_frame sma_indicator tk fetched) !! i = Some r ->
     sma_indicator (map snd fetched) 50%nat !! i = Some NaN \/
     sma_indicator (map snd fetched) 200%nat !! i = Some NaN ->
     signal r = (-1)%Z) /\
  ((forall close w, length (sma_indicator close w) = length close) ->
   map (fun r => (name r, Close r)) (rows (main_frame sma_indicator tk fetched))
     = fetched).
Proof.
  split; [|split].
  - apply List.Forall_forall. intros r Hin.
    now apply (main_frame_row sma_indicator tk fetched r).
  - apply main_frame_nan.
  - intros Hlen. now apply main_frame_length.
Qed.

Lemma rolling_mean_length (close : list Q) (w : nat) :
  length (rolling_mean close w) = length close.
Proof. unfold rolling_mean. now rewrite length_map, length_seq. Qed.

Lemma main_signals_never_hold_witness :
  map (fun r => (name r, Close r)) (rows (main_frame rolling_mean "AAPL" five_days))
    = five_days /\
  map signal (rows (main_frame rolling_mean "AAPL" five_days))
    = [-1; -1; -1; -1; -1]%Z.
Proof.
  split; [|reflexivity].
  apply (main_signals_never_hold rolling_mean "AAPL" five_days).
  apply rolling_mean_length.
Defined.

Section MainRun.

Variable sma_indicator : list Q -> nat -> list npfloat.
Variable tk : string.
Variable fetched : list (string * Q).

Hypothesis labels_apart : forall lc, In lc fetched -> fst lc <> tk.

Lemma main_backtest_run :
  no_name_entry tk (main_backtest sma_indicator tk fetched) /\
  map (fun t => (ticker t, price t)) (trades (main_backtest sma_indicator tk fetched)) =
    map (fun r => (name r, Close r))
        (List.filter (fun r => (signal r =? 1)%Z)
                     (rows (main_frame sma_indicator tk fetched))) /\
  length (trades (main_backtest sma_indicator tk fetched)) =
    buy_signals (rows (main_frame sma_indicator tk fetched)).
Proof.
  assert (Hk : forall r, In r (rows (main_frame sma_indicator tk fetched)) ->
                         name r <> tk).
  { intros r Hin. apply main_frame_row in Hin. destruct Hin as [Hin _].
    apply (labels_apart _ Hin). }
  unfold main_backtest, simulate, simulate_from.
  change (df_name (main_frame sma_indicator tk fetched)) with tk.
  pose proof (run_dated_log tk (rows (main_frame sma_indicator tk fetched))
                (init 1000000 (2 # 100)) Hk eq_refl) as Hlog.
  cbn [init trades map app] in Hlog.
  split; [|split; [exact Hlog|]].
  - apply run_no_name_entry; [exact Hk | reflexivity].
  - apply (f_equal length) in Hlog. now rewrite !length_map in Hlog.
Qed.

End MainRun.

(** X17: when no downloaded label equals the ticker, the backtest [main]
    runs never sells: the ledger has no entry under the ticker, and the log
    holds exactly the rows where the short average is above the long one,
    in order, each under its label at its close. *)
Theorem main_backtest_only_buys
    (sma_indicator : list Q -> nat -> list npfloat)
    (tk : string) (fetched : list (string * Q)) :
  (forall lc, In lc fetched -> fst lc <> tk) ->
  positions (main_backtest sma_indicator tk fetched) !! tk = None /\
  map (fun t => (ticker t, price t)) (trades (main_backtest sma_indicator tk fetched)) =
    map (fun r => (name r, Close r))
        (List.filter (fun r => (signal r =? 1)%Z)
                     (rows (main_frame sma_indicator tk fetched))) /\
  length (trades (main_backtest sma_indicator tk fetched)) =
    buy_signals (rows (main_frame sma_indicator tk fetched)).
Proof.
  intros Hl. exact (main_backtest_run sma_indicator tk fetched Hl).
Qed.

Lemma rising_prices_labels (lc : string * Q) :
  In lc rising_prices -> fst lc <> "AAPL".
Proof.
  unfold rising_prices. intros Hin. apply in_map_iff in Hin.
  destruct Hin as (i & <- & _). cbn. discriminate.
Qed.

Lemma rising_prices_closes (lc : string * Q) :
  In lc rising_prices -> ~ snd lc == 0.
Proof.
  unfold rising_prices. intros Hin. apply in_map_iff in Hin.
  destruct Hin as (i & <- & _). cbn [snd]. unfold Qeq. cbn. lia.
Qed.

Lemma main_backtest_only_buys_witness :
  buy_signals (rows (main_frame rolling_mean "AAPL" rising_prices)) = 3%nat /\
  positions (main_backtest rolling_mean "AAPL" rising_prices) !! "AAPL" = None /\
  length (trades (main_backtest rolling_mean "AAPL" rising_prices)) =
    buy_signals (rows (main_frame rolling_mean "AAPL" rising_prices)).
Proof.
  split; [vm_compute; reflexivity|].
  destruct (main_backtest_only_buys rolling_mean "AAPL" rising_prices
              rising_prices_labels) as (Hnone & _ & Hn).
  split; [exact Hnone | exact Hn].
Defined.

(** X18: what [main] does after the download, for labels apart from the
    ticker, non-zero closes and a moving average returning one value per
    close.  With no rows the summary raises [IndexError]; with rows but
    fewer than two on which the short average is above the long one it
    raises [TypeError], in particular whenever the long average is [nan] on
    every row; otherwise the summary is reported and the frame is plotted
    with one valuation per row. *)
Theorem main_outcome
    (sma_indicator : list Q -> nat -> list npfloat)
    (power : Q -> Q -> Q) (np_sqrt : Q -> Q)
    (tk : string) (fetched : list (string * Q)) :
  (forall close w, length (sma_indicator close w) = length close) ->
  (forall lc, In lc fetched -> fst lc <> tk) ->
  (forall lc, In lc fetched -> ~ snd lc == 0) ->
  (fetched = [] ->
   main sma_indicator power np_sqrt tk fetched = Crashed IndexError) /\
  (fetched <> [] ->
   (buy_signals (rows (main_frame sma_indicator tk fetched)) < 2)%nat ->
   main sma_indicator power np_sqrt tk fetched = Crashed TypeError) /\
  (fetched <> [] ->
   (forall i, (i < length fetched)%nat ->
      sma_indicator (map snd fetched) 200%nat !! i = Some NaN) ->
   main sma_indicator power np_sqrt tk fetched = Crashed TypeError) /\
  ((2 <= buy_signals (rows (main_frame sma_indicator tk fetched)))%nat ->
   exists s dates values overlay,
     main sma_indicator power np_sqrt tk fetched =
       Reported s (Plotted dates values overlay) /\
     length values = length fetched).
Proof.
  intros Hlen Hl Hc.
  destruct (main_backtest_run sma_indicator tk fetched Hl) as (_ & _ & Hn).
  destruct (main_frame_length sma_indicator tk fetched Hlen) as [Hrows _].
  assert (Hne : fetched <> [] -> rows (main_frame sma_indicator tk fetched) <> []).
  { intros Hf He. apply Hf. apply length_zero_iff_nil.
    rewrite <- Hrows, He. reflexivity. }
  assert (Hshort : fetched <> [] ->
            (buy_signals (rows (main_frame sma_indicator tk fetched)) < 2)%nat ->
            main sma_indicator power np_sqrt tk fetched = Crashed TypeError).
  { intros Hf Hk. unfold main.
    rewrite performance_summary_short_log;
      [reflexivity | now apply Hne | | now rewrite Hn].
    apply not_true_iff_false. intros Hz. apply zero_division_spec in Hz.
    destruct Hz as (r0 & tl & _ & _ & Ht & Hv).
    unfold main_backtest, simulate in Ht, Hv.
    rewrite simulate_from_no_trade in Hv by now rewrite Ht.
    rewrite portfolio_value_init in Hv. discriminate Hv. }
  split; [|split; [exact Hshort|split]].
  - intros ->. reflexivity.
  - intros Hf Hnan. apply Hshort; [exact Hf|].
    rewrite buy_signals_none; [lia|].
    intros r Hin. apply list_elem_of_In, list_elem_of_lookup in Hin.
    destruct Hin as [i Hi].
    apply (main_frame_nan sma_indicator tk fetched i r Hi).
    right. apply Hnan. rewrite <- Hrows. now apply lookup_lt_Some in Hi.
  - intros Hk.
    assert (Hr : rows (main_frame sma_indicator tk fetched) <> []).
    { intros He. rewrite He in Hk. cbn in Hk. lia. }
    destruct (performance_summary_long_log power np_sqrt
                (main_backtest sma_indicator tk fetched)
                (main_frame sma_indicator tk fetched) Hr) as [s Hs].
    { now rewrite Hn. }
    unfold main. rewrite Hs. unfold plot, valuations.
    destruct (rows (main_frame sma_indicator tk fetched)) as [|r tl] eqn:Hrs;
      [congruence|].
    cbn [map]. do 4 eexists. split; [reflexivity|].
    cbn [length]. rewrite length_map. now rewrite <- Hrows.
Qed.

Lemma main_outcome_witness :
  main rolling_mean power_floor sqrt_floor "AAPL" five_days = Crashed TypeError /\
  exists s dates values overlay,
    main rolling_mean power_floor sqrt_floor "AAPL" rising_prices =
      Reported s (Plotted dates values overlay) /\
    length values = length rising_prices.
Proof.
  split.
  - destruct (main_outcome rolling_mean power_floor sqrt_floor "AAPL" five_days)
      as (_ & Hshort & _ & _).
    + apply rolling_mean_length.
    + intros lc Hin. apply in_map_iff in Hin.
      destruct Hin as (i & <- & _). cbn. discriminate.
    + intros lc Hin. apply in_map_iff in Hin.
      destruct Hin as (i & <- & _). cbn [snd]. unfold Qeq. cbn. lia.
    + apply Hshort; [discriminate | vm_compute; lia].
  - destruct (main_outcome rolling_mean power_floor sqrt_floor "AAPL" rising_prices
                rolling_mean_length rising_prices_labels rising_prices_closes)
      as (_ & _ & _ & Hlong).
    apply Hlong. vm_compute. lia.
Defined.

(** ** Further behaviour of the sell and buy branches *)

(** X19: a sell executed on a row whose label is not the frame name does
    not touch the entry under the frame name, so the next sell row (again
    labelled apart) finds the same quantity and sells it once more: two
    such rows in a row execute two sales of the full held quantity. *)
Theorem sell_repeats (nm : string) (st : State) (r1 r2 : Row) :
  signal r1 = (-1)%Z -> signal r2 = (-1)%Z ->
  name r1 <> nm -> name r2 <> nm ->
  0 < get (positions st) nm ->
  step nm (step nm st r1) r2 =
    _execute (_execute st (name r1) (- get (positions st) nm) (Close r1))
             (name r2) (- get (positions st) nm) (Close r2) /\
  get (positions (step nm (step nm st r1) r2)) nm = get (positions st) nm.
Proof.
  intros Hs1 Hs2 Hk1 Hk2 Hpos.
  assert (H1 : step nm st r1 =
               _execute st (name r1) (- get (positions st) nm) (Close r1))
    by now apply step_sell_exec.
  assert (Hheld : get (positions (step nm st r1)) nm = get (positions st) nm).
  { rewrite H1. cbn [_execute positions]. now rewrite get_insert_ne. }
  assert (H2 : step nm (step nm st r1) r2 =
               _execute (step nm st r1) (name r2)
                        (- get (positions st) nm) (Close r2)).
  { rewrite step_sell_exec; [now rewrite Hheld | assumption | now rewrite Hheld]. }
  split; [now rewrite H2, H1|].
  rewrite H2. cbn [_execute positions]. now rewrite get_insert_ne.
Qed.

Lemma sell_repeats_witness :
  let st := simulate_from mixed_A (init 1000 (1 # 2)) (firstn 2 (rows mixed_A)) in
  get (positions (step "AAPL" (step "AAPL" st (mkRow "2024-01-04" 121 (-1)))
                       (mkRow "2024-01-05" 130 (-1)))) "AAPL"
    = get (positions st) "AAPL" /\
  length (trades (step "AAPL" (step "AAPL" st (mkRow "2024-01-04" 121 (-1)))
                       (mkRow "2024-01-05" 130 (-1))))
    = S (S (length (trades st))).
Proof.
  cbv zeta.
  destruct (sell_repeats "AAPL"
           (simulate_from mixed_A (init 1000 (1 # 2)) (firstn 2 (rows mixed_A)))
           (mkRow "2024-01-04" 121 (-1)) (mkRow "2024-01-05" 130 (-1)))
    as [Hstep Hheld]; try reflexivity; try discriminate.
  split; [exact Hheld|].
  rewrite Hstep. cbn [_execute trades]. rewrite !length_app. cbn. lia.
Defined.

(** X20: a buy signal met with a zero cash balance still executes: a trade
    of quantity zero is logged under the row label and the position entry is
    created or kept, while the cash stays zero. *)
Theorem zero_cash_buy_is_logged (nm : string) (st : State) (r : Row) :
  signal r = 1%Z -> cash st == 0 -> ~ Close r == 0 ->
  (exists q, q == 0 /\
     trades (step nm st r) = trades st ++ [mkTrade (name r) q (Close r)]) /\
  is_Some (positions (step nm st r) !! name r) /\
  get (positions (step nm st r)) (name r) == get (positions st) (name r) /\
  cash (step nm st r) == 0.
Proof.
  intros Hs Hc Hp. rewrite step_buy by assumption.
  cbn [_execute trades positions cash].
  assert (Hq : cash st * risk_fraction st / Close r == 0).
  { rewrite Hc. now field. }
  split; [|split; [|split]].
  - eexists. split; [exact Hq | reflexivity].
  - rewrite lookup_insert_eq. eauto.
  - rewrite get_insert_eq, Hq. ring.
  - rewrite Hq, Hc. ring.
Qed.

Lemma zero_cash_buy_is_logged_witness :
  length (trades (step "AAPL" (init 0 (1 # 2)) (mkRow "2024-01-02" 100 1))) = 1%nat /\
  cash (step "AAPL" (init 0 (1 # 2)) (mkRow "2024-01-02" 100 1)) == 0.
Proof.
  destruct (zero_cash_buy_is_logged "AAPL" (init 0 (1 # 2)) (mkRow "2024-01-02" 100 1))
    as ((q & _ & Hlog) & _ & _ & Hc); [reflexivity | reflexivity | discriminate |].
  split; [now rewrite Hlog | exact Hc].
Defined.
